(** * Job Matcher Backend: a shallow embedding of [server.js]

    The service is an Express application with three routes.  This file
    embeds the parts of [server.js] that decide how a request is answered:
    the multer upload gate ([fileFilter]), the CORS origin callback, the text
    extractors, the two prompt templates and the two POST handlers.

    Conventions.
    - A JavaScript string is the list of its UTF-16 code units ([jsstring]).
    - A Node [Buffer] is a list of bytes.
    - Values that reach the handlers through [express.json()] or
      [JSON.parse] are JSON values ([Value]); [undefined] is [None].
    - Numbers are IEEE doubles in the engine; their arithmetic is not part of
      this development and they are kept behind the interface [NumberOps].
    - The collaborators the handlers call ([pdf-parse], [mammoth], the Gemini
      client) are fields of an environment [Env]; every call to one of them
      is recorded in the handler's trace of [Event]s.
    - Two facts the code does not fix are fields of [Env] as well: how
      multer's parser treats a file of exactly the size limit, and how deep
      a value the engine's call stack holds.
    - The file part of a multipart request is the part sent under the field
      name [file]; a part without a file name is no file for multer.
    - [console.log] / [console.error] output is not modelled.
    - The statements about the handlers and routes are about requests the
      CORS middleware has let through ([post_analyze_resume] and
      [post_match_jobs] put the middleware in front).

    [server.js] exists in two revisions.  The embedding follows the one that
    has the match-jobs route; the other one differs from it in the text of
    the resume template and in the model name only, and no statement below
    depends on either. *)

From Stdlib Require Import List String Ascii NArith ZArith Bool Lia.
From Stdlib.Strings Require Import Byte.
From Stdlib Require Import DecimalString.
Import ListNotations.

Local Open Scope N_scope.

(* ================================================================== *)
(** * JavaScript strings *)
(* ================================================================== *)

(** A string is its sequence of UTF-16 code units. *)
Definition jsstring : Type := list N.

(** String literals of the source that are plain ASCII. *)
Definition lit (s : string) : jsstring :=
  List.map N_of_ascii (list_ascii_of_string s).

(** The source's templates contain double quotes; in this file a template is
    written with a backquote wherever the source has a double quote (a
    template literal cannot contain a bare backquote, so the encoding is
    unambiguous) and [tpl] restores the double quotes. *)
Definition tpl (s : string) : jsstring :=
  List.map (fun c => if c =? 96 then 34 else c) (lit s).

Fixpoint str_eqb (a b : jsstring) : bool :=
  match a, b with
  | [], [] => true
  | x :: a', y :: b' => (x =? y) && str_eqb a' b'
  | _, _ => false
  end.

(** [Array.prototype.includes] on an array of strings. *)
Definition includes (l : list jsstring) (x : jsstring) : bool :=
  existsb (str_eqb x) l.

(** [String.prototype.toLowerCase], one code unit at a time.  The mapping is
    the Unicode one for
    - the code units up to U+00FF: ASCII [A-Z] and the Latin-1 capitals
      U+00C0..U+00DE except the multiplication sign U+00D7;
    - U+0130, the one character whose lowercase form is longer than itself:
      [i] followed by U+0307;
    - U+212A (KELVIN SIGN), the one other character beyond ASCII whose
      lowercase form has an ASCII code unit: [k].
    Every other cased letter is lowered by JavaScript to a letter beyond
    ASCII, unit for unit; this model leaves it as it is, so that the result
    agrees with JavaScript's in length and in every ASCII code unit. *)
Definition lower_unit (c : N) : jsstring :=
  if c =? 304 then [105; 775]
  else if c =? 8490 then [107]
  else if ((65 <=? c) && (c <=? 90))
          || ((192 <=? c) && (c <=? 222) && negb (c =? 215))
  then [c + 32] else [c].

Definition toLowerCase (s : jsstring) : jsstring := flat_map lower_unit s.

(** [s.lastIndexOf(c)] for a one-unit search string: the index of the last
    occurrence, or [-1]. *)
Fixpoint lastIndexOf_from (s : jsstring) (c : N) (i found : Z) : Z :=
  match s with
  | [] => found
  | x :: t => lastIndexOf_from t c (i + 1)%Z (if x =? c then i else found)
  end.

Definition lastIndexOf (s : jsstring) (c : N) : Z :=
  lastIndexOf_from s c 0%Z (-1)%Z.

(** [s.slice(start)]: a negative [start] counts from the end. *)
Definition slice (s : jsstring) (start : Z) : jsstring :=
  let len := Z.of_nat (List.length s) in
  let from := if (start <? 0)%Z then Z.max (len + start) 0 else Z.min start len in
  skipn (Z.to_nat from) s.

(** ECMAScript [WhiteSpace] and [LineTerminator] code points, the ones
    [String.prototype.trim] removes. *)
Definition is_white (c : N) : bool :=
  existsb (N.eqb c)
    [9; 10; 11; 12; 13; 32; 160; 5760; 8232; 8233; 8239; 8287; 12288; 65279]
  || ((8192 <=? c) && (c <=? 8202)).

Fixpoint trimStart (s : jsstring) : jsstring :=
  match s with
  | c :: t => if is_white c then trimStart t else s
  | [] => []
  end.

Definition trimEnd (s : jsstring) : jsstring := rev (trimStart (rev s)).

Definition trim (s : jsstring) : jsstring := trimEnd (trimStart s).

(** [Array.prototype.join]. *)
Fixpoint join (sep : jsstring) (l : list jsstring) : jsstring :=
  match l with
  | [] => []
  | [x] => x
  | x :: t => x ++ sep ++ join sep t
  end.

(** [Number.prototype.toString] of a non-negative integer (an array index
    plus one): its decimal digits. *)
Definition nat_toString (n : nat) : jsstring :=
  lit (NilZero.string_of_uint (Nat.to_uint n)).

(* ================================================================== *)
(** * [Buffer.prototype.toString('utf-8')] *)
(* ================================================================== *)

(** Node decodes leniently: the decoder below is the WHATWG UTF-8 decoder,
    which never fails and emits U+FFFD for every ill-formed subsequence.  A
    byte order mark is kept. *)
Module Utf8.

Record state : Type := mkState
  { needed : N; seen : N; cp : N; lower : N; upper : N }.

Definition initial : state := mkState 0 0 0 128 191.

Inductive item : Type :=
  | Scalar (c : N)
  | Replacement.

(** A byte met while no sequence is open. *)
Definition lead (b : N) : state * list item :=
  if b <=? 127 then (initial, [Scalar b])
  else if (194 <=? b) && (b <=? 223) then
    (mkState 1 0 (N.land b 31) 128 191, [])
  else if (224 <=? b) && (b <=? 239) then
    (mkState 2 0 (N.land b 15)
       (if b =? 224 then 160 else 128) (if b =? 237 then 159 else 191), [])
  else if (240 <=? b) && (b <=? 244) then
    (mkState 3 0 (N.land b 7)
       (if b =? 240 then 144 else 128) (if b =? 244 then 143 else 191), [])
  else (initial, [Replacement]).

(** One byte of input.  A byte outside the expected continuation range
    closes the open sequence with an error and is then read again as a lead
    byte. *)
Definition step (st : state) (b : N) : state * list item :=
  if needed st =? 0 then lead b
  else if (lower st <=? b) && (b <=? upper st) then
    let c := N.lor (N.shiftl (cp st) 6) (N.land b 63) in
    if seen st + 1 =? needed st then (initial, [Scalar c])
    else (mkState (needed st) (seen st + 1) c 128 191, [])
  else let (st', out) := lead b in (st', Replacement :: out).

Fixpoint run (st : state) (bs : list byte) : list item :=
  match bs with
  | [] => if needed st =? 0 then [] else [Replacement]
  | b :: t => let (st', out) := step st (Byte.to_N b) in out ++ run st' t
  end.

Definition decode (bs : list byte) : list item := run initial bs.


(** UTF-16 code units of a scalar value. *)
Definition utf16 (c : N) : list N :=
  if c <? 65536 then [c]
  else [55296 + N.shiftr (c - 65536) 10; 56320 + N.land (c - 65536) 1023].

Definition units (i : item) : list N :=
  match i with
  | Scalar c => utf16 c
  | Replacement => [65533]
  end.



End Utf8.

Definition Buffer_toString_utf8 (bs : list byte) : jsstring :=
  flat_map Utf8.units (Utf8.decode bs).

(* ================================================================== *)
(** * Upload gate: the multer configuration *)
(* ================================================================== *)

(** The part of multer's file object the code reads. *)
Record File : Type := mkFile
  { originalname : jsstring; buffer : list byte }.

Definition dot : N := 46.

Definition allowedTypes : list jsstring :=
  [lit ".pdf"; lit ".docx"; lit ".txt"].

(** [file.originalname.toLowerCase().slice(file.originalname.lastIndexOf('.'))] *)
Definition fileExt (file : File) : jsstring :=
  slice (toLowerCase (originalname file)) (lastIndexOf (originalname file) dot).

(** What [fileFilter] hands to its callback [cb]. *)
Inductive FilterResult : Type :=
  | Accept
  | Reject (message : jsstring).

Definition invalid_file_type : jsstring :=
  lit "Invalid file type. Only PDF, DOCX, and TXT files are allowed.".

Definition fileFilter (file : File) : FilterResult :=
  if includes allowedTypes (fileExt file) then Accept
  else Reject invalid_file_type.

(** [limits.fileSize]: 10 * 1024 * 1024. *)
Definition fileSize_limit : N := 10 * 1024 * 1024.

(* ================================================================== *)
(** * Regular expressions of the CORS policy *)
(* ================================================================== *)

(** The two patterns of the origin callback use literal characters, one
    bracket class and [+]; both are anchored with [^] and [$] and carry no
    flag, so [origin.match(re)] is non-null exactly when the whole origin is
    in the language of the pattern between the anchors.  Matching is by
    Brzozowski derivatives. *)
Module Regex.

Inductive re : Type :=
  | Void
  | Eps
  | Chr (c : N)
  | Class (ranges : list (N * N))
  | Seq (r s : re)
  | Alt (r s : re)
  | Star (r : re).

(** [r+] *)
Definition Plus (r : re) : re := Seq r (Star r).

(** A run of literal characters. *)
Fixpoint text (s : jsstring) : re :=
  match s with
  | [] => Eps
  | c :: t => Seq (Chr c) (text t)
  end.

Definition in_ranges (ranges : list (N * N)) (c : N) : bool :=
  existsb (fun lh => (fst lh <=? c) && (c <=? snd lh)) ranges.

Fixpoint nullable (r : re) : bool :=
  match r with
  | Void => false
  | Eps => true
  | Chr _ => false
  | Class _ => false
  | Seq r s => nullable r && nullable s
  | Alt r s => nullable r || nullable s
  | Star _ => true
  end.

Fixpoint deriv (c : N) (r : re) : re :=
  match r with
  | Void => Void
  | Eps => Void
  | Chr d => if c =? d then Eps else Void
  | Class ranges => if in_ranges ranges c then Eps else Void
  | Seq r s =>
      if nullable r then Alt (Seq (deriv c r) s) (deriv c s)
      else Seq (deriv c r) s
  | Alt r s => Alt (deriv c r) (deriv c s)
  | Star r => Seq (deriv c r) (Star r)
  end.

Fixpoint matches (r : re) (s : jsstring) : bool :=
  match s with
  | [] => nullable r
  | c :: t => matches (deriv c r) t
  end.

(** The language of a pattern, declaratively. *)
Inductive Lang : re -> jsstring -> Prop :=
  | LEps : Lang Eps []
  | LChr c : Lang (Chr c) [c]
  | LClass ranges c : in_ranges ranges c = true -> Lang (Class ranges) [c]
  | LSeq r s u v : Lang r u -> Lang s v -> Lang (Seq r s) (u ++ v)
  | LAltL r s u : Lang r u -> Lang (Alt r s) u
  | LAltR r s u : Lang s u -> Lang (Alt r s) u
  | LStarNil r : Lang (Star r) []
  | LStarApp r u v : Lang r u -> Lang (Star r) v -> Lang (Star r) (u ++ v).

End Regex.

(* ================================================================== *)
(** * CORS origin callback *)
(* ================================================================== *)

(** What the origin function hands to [callback]. *)
Inductive CorsDecision : Type :=
  | Allowed
  | NotAllowed (message : jsstring).

Definition allowedOrigins : list jsstring :=
  [ lit "http://localhost:5173";
    lit "https://lovable.dev";
    lit "https://fb974799-ea5e-4d7f-b7d5-59fd6e909e7d.lovableproject.com";
    lit "https://job-matcher-backend-production-4600.up.railway.app" ].

(** [[a-zA-Z0-9-]] *)
Definition label_class : list (N * N) :=
  [(97, 122); (65, 90); (48, 57); (45, 45)].

(** [/^https:\/\/[a-zA-Z0-9-]+\.lovable\.dev$/] *)
Definition lovable_subdomain_re : Regex.re :=
  Regex.Seq (Regex.text (lit "https://"))
    (Regex.Seq (Regex.Plus (Regex.Class label_class))
       (Regex.text (lit ".lovable.dev"))).

(** [/^https:\/\/[a-zA-Z0-9-]+\.lovableproject\.com$/] *)
Definition lovable_project_re : Regex.re :=
  Regex.Seq (Regex.text (lit "https://"))
    (Regex.Seq (Regex.Plus (Regex.Class label_class))
       (Regex.text (lit ".lovableproject.com"))).

(** The function given to [cors] as [origin].  Its argument is
    [req.headers.origin]: [None] when the request has no [Origin] header.
    [!origin] also holds for the empty string. *)
Definition cors_origin (origin : option jsstring) : CorsDecision :=
  match origin with
  | None => Allowed
  | Some [] => Allowed
  | Some o =>
      let isLovableSubdomain := Regex.matches lovable_subdomain_re o in
      let isLovableProject := Regex.matches lovable_project_re o in
      if includes allowedOrigins o || isLovableSubdomain || isLovableProject
      then Allowed
      else NotAllowed (lit "Not allowed by CORS")
  end.

(* ================================================================== *)
(** * Results, collaborators and traces *)
(* ================================================================== *)

(** A call either returns or throws an [Error]; of a thrown error the code
    reads only [message]. *)
Inductive Outcome (A : Type) : Type :=
  | Return (a : A)
  | Throw (message : jsstring).

Arguments Return {A} a.
Arguments Throw {A} message.

(** Calls that leave the process. *)
Inductive Event : Type :=
  | PdfParse (buffer : list byte)
  | ExtractRawText (buffer : list byte)
  | GenerateContent (model prompt : jsstring).

Definition is_llm_call (e : Event) : bool :=
  match e with GenerateContent _ _ => true | _ => false end.

(** No request was sent to the LLM provider. *)
Definition no_llm_call (trace : list Event) : Prop :=
  forall model prompt, ~ In (GenerateContent model prompt) trace.

(** Doubles are kept abstract: the handlers only test a number for
    truthiness and render it, and [JSON.parse] only builds one from a
    literal. *)
Class NumberOps : Type := mkNumberOps
  { Number : Type;
    Number_ToBoolean : Number -> bool;
    Number_ToString : Number -> jsstring;
    Number_isFinite : Number -> bool;
    Number_ofLiteral : jsstring -> Number }.

(* ================================================================== *)
(** * JSON values *)
(* ================================================================== *)

#[local] Set Warnings "-register-all".

Section Values.

Context {num : NumberOps}.

(** The values [JSON.parse] can produce.  [Obj] lists the own properties in
    enumeration order, with distinct keys. *)
Inductive Value : Type :=
  | Null
  | Bool (b : bool)
  | Num (n : Number)
  | Str (s : jsstring)
  | Arr (items : list Value)
  | Obj (members : list (jsstring * Value)).

(** [ToBoolean]; [None] is [undefined]. *)
Definition ToBoolean (v : option Value) : bool :=
  match v with
  | None => false
  | Some Null => false
  | Some (Bool b) => b
  | Some (Num n) => Number_ToBoolean n
  | Some (Str s) => match s with [] => false | _ => true end
  | Some (Arr _) => true
  | Some (Obj _) => true
  end.

(** [ToString], as a template literal applies it to a substitution whose
    conversion is the built-in one ([has_default_toString] below). *)
Fixpoint ToString (v : Value) : jsstring :=
  match v with
  | Null => lit "null"
  | Bool true => lit "true"
  | Bool false => lit "false"
  | Num n => Number_ToString n
  | Str s => s
  | Arr items =>
      join (lit ",")
        (List.map (fun x => match x with Null => [] | _ => ToString x end) items)
  | Obj _ => lit "[object Object]"
  end.

(** [Array.isArray] *)
Definition isArray (v : Value) : bool :=
  match v with Arr _ => true | _ => false end.

Fixpoint lookup (k : jsstring) (members : list (jsstring * Value)) : option Value :=
  match members with
  | [] => None
  | (k', v) :: t => if str_eqb k k' then Some v else lookup k t
  end.

(** Whether the conversion of a value to a string in a template literal is
    the built-in one, which [ToString] gives.  An object parsed from JSON
    that has a member named [toString] carries no callable under that name,
    so that its conversion throws a [TypeError]; an array converts its items
    in turn. *)
Fixpoint has_default_toString (v : Value) : bool :=
  match v with
  | Arr items => forallb has_default_toString items
  | Obj members =>
      match lookup (lit "toString") members with None => true | Some _ => false end
  | _ => true
  end.

(** [v.k] for a key that is no built-in property ([resumeText],
    [userProfile], [userAnswers]): [undefined] unless [v] is an object with
    that member. *)
Definition get (v : Value) (k : jsstring) : option Value :=
  match v with
  | Obj members => lookup k members
  | _ => None
  end.

(** ** [JSON.stringify(value, null, 2)] *)

Definition hex_digit (n : N) : N := if n <? 10 then 48 + n else 87 + n.

Definition unicode_escape (c : N) : jsstring :=
  [92; 117; hex_digit (c / 4096); hex_digit ((c / 256) mod 16);
   hex_digit ((c / 16) mod 16); hex_digit (c mod 16)].

Definition is_high_surrogate (c : N) : bool := (55296 <=? c) && (c <=? 56319).
Definition is_low_surrogate (c : N) : bool := (56320 <=? c) && (c <=? 57343).

Definition escape_unit (c : N) : jsstring :=
  if c =? 8 then [92; 98]
  else if c =? 9 then [92; 116]
  else if c =? 10 then [92; 110]
  else if c =? 12 then [92; 102]
  else if c =? 13 then [92; 114]
  else if c =? 34 then [92; 34]
  else if c =? 92 then [92; 92]
  else if (c <? 32) || is_low_surrogate c then unicode_escape c
  else [c].

Fixpoint quote_units (s : jsstring) : jsstring :=
  match s with
  | [] => []
  | c :: t =>
      if is_high_surrogate c then
        match t with
        | d :: t' =>
            if is_low_surrogate d then c :: d :: quote_units t'
            else unicode_escape c ++ quote_units t
        | [] => unicode_escape c
        end
      else escape_unit c ++ quote_units t
  end.

(** [QuoteJSONString] *)
Definition quote (s : jsstring) : jsstring := [34] ++ quote_units s ++ [34].

Definition newline : jsstring := [10].
Definition gap : jsstring := [32; 32].

(** [SerializeJSONProperty] with the two-space gap; [indent] is the current
    indentation. *)
Fixpoint stringify (indent : jsstring) (v : Value) : jsstring :=
  match v with
  | Null => lit "null"
  | Bool true => lit "true"
  | Bool false => lit "false"
  | Num n => if Number_isFinite n then Number_ToString n else lit "null"
  | Str s => quote s
  | Arr [] => lit "[]"
  | Arr items =>
      let stepback := indent in
      let indent := indent ++ gap in
      lit "[" ++ newline ++ indent
        ++ join (lit "," ++ newline ++ indent) (List.map (stringify indent) items)
        ++ newline ++ stepback ++ lit "]"
  | Obj [] => lit "{}"
  | Obj members =>
      let stepback := indent in
      let indent := indent ++ gap in
      lit "{" ++ newline ++ indent
        ++ join (lit "," ++ newline ++ indent)
             (List.map (fun kv => quote (fst kv) ++ lit ": " ++ stringify indent (snd kv))
                members)
        ++ newline ++ stepback ++ lit "}"
  end.

Definition JSON_stringify_2 (v : Value) : jsstring := stringify [] v.

(** ** [JSON.parse] *)

Definition is_json_ws (c : N) : bool :=
  (c =? 9) || (c =? 10) || (c =? 13) || (c =? 32).

Fixpoint skip_ws (s : jsstring) : jsstring :=
  match s with
  | c :: t => if is_json_ws c then skip_ws t else s
  | [] => []
  end.

Definition is_digit (c : N) : bool := (48 <=? c) && (c <=? 57).

Fixpoint span_digits (s : jsstring) : jsstring * jsstring :=
  match s with
  | c :: t =>
      if is_digit c then let (ds, r) := span_digits t in (c :: ds, r)
      else ([], s)
  | [] => ([], [])
  end.

Fixpoint strip_prefix (p s : jsstring) : option jsstring :=
  match p, s with
  | [], _ => Some s
  | a :: p', b :: s' => if a =? b then strip_prefix p' s' else None
  | _ :: _, [] => None
  end.

(** The grammar of a JSON number, part by part: each function returns the
    characters it read and what follows them. *)

(** [0] or a non-zero digit followed by digits. *)
Definition lex_int (s : jsstring) : option (jsstring * jsstring) :=
  match s with
  | c :: t =>
      if c =? 48 then Some ([48], t)
      else if is_digit c then Some (span_digits s)
      else None
  | [] => None
  end.

(** Nothing, or [.] and at least one digit. *)
Definition lex_frac (s : jsstring) : option (jsstring * jsstring) :=
  match s with
  | c :: t =>
      if c =? 46 then
        match span_digits t with
        | ([], _) => None
        | (fs, r) => Some (46 :: fs, r)
        end
      else Some ([], s)
  | [] => Some ([], s)
  end.

(** Nothing, or [e] or [E], an optional sign and at least one digit. *)
Definition lex_exp (s : jsstring) : option (jsstring * jsstring) :=
  match s with
  | c :: t =>
      if (c =? 101) || (c =? 69) then
        let (esign, t1) :=
          match t with
          | d :: t' => if (d =? 43) || (d =? 45) then ([d], t') else ([], t)
          | [] => ([], t)
          end in
        match span_digits t1 with
        | ([], _) => None
        | (es, r) => Some (c :: esign ++ es, r)
        end
      else Some ([], s)
  | [] => Some ([], s)
  end.

(** The lexeme of a JSON number at the head of [s], and what follows it. *)
Definition lex_number (s : jsstring) : option (jsstring * jsstring) :=
  let (sign, s1) :=
    match s with
    | c :: t => if c =? 45 then ([45], t) else ([], s)
    | [] => ([], s)
    end in
  match lex_int s1 with
  | None => None
  | Some (ds, s2) =>
      match lex_frac s2 with
      | None => None
      | Some (fs, s3) =>
          match lex_exp s3 with
          | None => None
          | Some (es, s4) => Some (sign ++ ds ++ fs ++ es, s4)
          end
      end
  end.

Definition hex_value (c : N) : option N :=
  if is_digit c then Some (c - 48)
  else if (97 <=? c) && (c <=? 102) then Some (c - 87)
  else if (65 <=? c) && (c <=? 70) then Some (c - 55)
  else None.

Definition hex4 (a b c d : N) : option N :=
  match hex_value a, hex_value b, hex_value c, hex_value d with
  | Some x, Some y, Some z, Some w => Some (x * 4096 + y * 256 + z * 16 + w)
  | _, _, _, _ => None
  end.

Definition simple_escape (e : N) : option N :=
  if e =? 34 then Some 34
  else if e =? 92 then Some 92
  else if e =? 47 then Some 47
  else if e =? 98 then Some 8
  else if e =? 102 then Some 12
  else if e =? 110 then Some 10
  else if e =? 114 then Some 13
  else if e =? 116 then Some 9
  else None.

(** The characters of a string literal after its opening quote; [acc] holds
    the decoded units so far, last first. *)
Fixpoint parse_string_body (s acc : jsstring) : option (jsstring * jsstring) :=
  match s with
  | [] => None
  | c :: t =>
      if c =? 34 then Some (rev acc, t)
      else if c =? 92 then
        match t with
        | [] => None
        | e :: t1 =>
            if e =? 117 then
              match t1 with
              | h1 :: h2 :: h3 :: h4 :: t2 =>
                  match hex4 h1 h2 h3 h4 with
                  | Some u => parse_string_body t2 (u :: acc)
                  | None => None
                  end
              | _ => None
              end
            else
              match simple_escape e with
              | Some u => parse_string_body t1 (u :: acc)
              | None => None
              end
        end
      else if c <? 32 then None
      else parse_string_body t (c :: acc)
  end.

Fixpoint index_value (k : jsstring) (acc : N) : N :=
  match k with
  | [] => acc
  | c :: t => index_value t (10 * acc + (c - 48))
  end.

(** An array index key: the canonical decimal form of an integer below
    [2^32 - 1]. *)
Definition is_index_key (k : jsstring) : bool :=
  match k with
  | [] => false
  | [c] => is_digit c
  | c :: _ => negb (c =? 48) && forallb is_digit k
              && (index_value k 0 <=? 4294967294)
  end.

(** [CreateDataProperty]: an existing key keeps its place and takes the new
    value; a new index key goes among the index keys in ascending order, any
    other new key goes last. *)
Fixpoint set_member (k : jsstring) (v : Value) (members : list (jsstring * Value))
  : list (jsstring * Value) :=
  match members with
  | [] => [(k, v)]
  | (k', v') :: t =>
      if str_eqb k k' then (k, v) :: t
      else if is_index_key k
                && (negb (is_index_key k')
                    || (index_value k 0 <? index_value k' 0))
                && negb (existsb (fun kv => str_eqb k (fst kv)) t)
      then (k, v) :: (k', v') :: t
      else (k', v') :: set_member k v t
  end.

Fixpoint parse_value (fuel : nat) (s : jsstring) {struct fuel}
  : option (Value * jsstring) :=
  match fuel with
  | O => None
  | S fuel =>
      match skip_ws s with
      | [] => None
      | c :: t =>
          if c =? 34 then
            match parse_string_body t [] with
            | Some (str, r) => Some (Str str, r)
            | None => None
            end
          else if c =? 91 then
            match skip_ws t with
            | d :: t' =>
                if d =? 93 then Some (Arr [], t')
                else parse_elements fuel t []
            | [] => None
            end
          else if c =? 123 then
            match skip_ws t with
            | d :: t' =>
                if d =? 125 then Some (Obj [], t')
                else parse_members fuel t []
            | [] => None
            end
          else if c =? 116 then
            option_map (fun r => (Bool true, r)) (strip_prefix (lit "true") (c :: t))
          else if c =? 102 then
            option_map (fun r => (Bool false, r)) (strip_prefix (lit "false") (c :: t))
          else if c =? 110 then
            option_map (fun r => (Null, r)) (strip_prefix (lit "null") (c :: t))
          else
            match lex_number (c :: t) with
            | Some (lexeme, r) => Some (Num (Number_ofLiteral lexeme), r)
            | None => None
            end
      end
  end
with parse_elements (fuel : nat) (s : jsstring) (acc : list Value) {struct fuel}
  : option (Value * jsstring) :=
  match fuel with
  | O => None
  | S fuel =>
      match parse_value fuel s with
      | None => None
      | Some (v, r) =>
          match skip_ws r with
          | c :: t =>
              if c =? 44 then parse_elements fuel t (v :: acc)
              else if c =? 93 then Some (Arr (rev (v :: acc)), t)
              else None
          | [] => None
          end
      end
  end
with parse_members (fuel : nat) (s : jsstring) (acc : list (jsstring * Value))
  {struct fuel} : option (Value * jsstring) :=
  match fuel with
  | O => None
  | S fuel =>
      match skip_ws s with
      | q :: t =>
          if q =? 34 then
            match parse_string_body t [] with
            | None => None
            | Some (k, r) =>
                match skip_ws r with
                | colon :: r1 =>
                    if colon =? 58 then
                      match parse_value fuel r1 with
                      | None => None
                      | Some (v, r2) =>
                          match skip_ws r2 with
                          | c :: t2 =>
                              if c =? 44 then parse_members fuel t2 (set_member k v acc)
                              else if c =? 125 then Some (Obj (set_member k v acc), t2)
                              else None
                          | [] => None
                          end
                      end
                    else None
                | [] => None
                end
            end
          else None
      | [] => None
      end
  end.

(** [JSON.parse(text)]: [None] when it throws a [SyntaxError]. *)
Definition JSON_parse (text : jsstring) : option Value :=
  match parse_value (2 * List.length text + 2) text with
  | Some (v, r) => match skip_ws r with [] => Some v | _ => None end
  | None => None
  end.

End Values.

(* ================================================================== *)
(** * The environment *)
(* ================================================================== *)

(** The operations of the handlers that recurse over the nesting of a
    value, each with its own use of the engine's call stack. *)
Inductive Recursion : Type :=
  | Stringify          (* [JSON.stringify(value)], inside [res.json] *)
  | StringifyIndented  (* [JSON.stringify(value, null, 2)] *)
  | ArrayToString.     (* the conversion of an array to a string *)

Section Environment.

Context {num : NumberOps}.

(** The process environment, the libraries the handlers call and the two
    facts about the installed engine and libraries that the code does not
    fix.
    - [GEMINI_API_KEY] is [process.env.GEMINI_API_KEY];
    - [pdfParse buffer] stands for [(await pdfParse(buffer)).text];
    - [extractRawText buffer] for
      [(await mammoth.extractRawText({ buffer })).value];
    - [generateContent model prompt] for
      [(await genAI.getGenerativeModel({ model }).generateContent(prompt)).response.text()];
    - [limit_reached_is_error] tells whether multer's parser refuses a file
      whose size is exactly [limits.fileSize] (busboy 1.x does, busboy 0.x
      refuses larger files only);
    - [stack_overflow operation value] stands for the engine's call stack.
      An operation that recurses over the nesting of a value
      ([JSON.stringify], directly or inside [res.json], and the conversion
      of an array to a string) throws a [RangeError] on a value nested
      deeper than the stack holds for it; [stack_overflow operation value]
      is the message of that error, and [None] for a value within the
      stack.  On a value that [JSON.parse] built, [JSON.stringify] has no
      other error. *)
Record Env : Type := mkEnv
  { GEMINI_API_KEY : option jsstring;
    pdfParse : list byte -> Outcome jsstring;
    extractRawText : list byte -> Outcome jsstring;
    generateContent : jsstring -> jsstring -> Outcome jsstring;
    limit_reached_is_error : bool;
    stack_overflow : Recursion -> Value -> option jsstring }.

End Environment.

(* ================================================================== *)
(** * Prompt templates *)
(* ================================================================== *)

(** The fixed text of the two template literals, cut at their
    substitutions. *)

Definition resume_prompt_head : jsstring := tpl
"You are an expert career counselor and resume analyst. Your task is to thoroughly analyze the provided resume and extract COMPREHENSIVE information.

RESUME TEXT:
".

Definition resume_prompt_tail : jsstring := tpl
"

CRITICAL INSTRUCTIONS:
1. Extract EVERY skill mentioned in the resume - be exhaustive and include technical skills, soft skills, tools, languages, methodologies, certifications, and any other competencies mentioned
2. Provide a DETAILED experience summary covering the full arc of their career - include progression, key achievements, and scope of responsibility
3. Extract ALL education mentioned - degrees, certifications, relevant coursework, and continuous learning
4. Identify their career level (entry-level, mid-level, senior, manager, executive)
5. Generate exactly 5 SPECIFIC, CONVERSATIONAL questions designed to understand their career aspirations and match them with the RIGHT opportunities

Generate questions that are:
- Natural and conversational (like a real person talking)
- Specific to their background and experience level
- Designed to uncover career direction (pivot vs. continuation vs. advancement)
- Focused on preferences, values, and constraints
- Never generic or robotic

Format response as ONLY valid JSON (no markdown, no extra text):
{
  `analysis`: {
    `name`: `Full name (or 'Not specified')`,
    `currentRole`: `Most recent job title and company`,
    `careerLevel`: `entry-level|mid-level|senior|manager|executive`,
    `skills`: [`skill1`, `skill2`, `skill3`, `skill4`, `skill5`, ... list ALL skills comprehensively],
    `experience`: `Write 3-4 sentences providing a comprehensive overview of their entire career journey, key achievements, and progression. Include scope of work, industries, and any unique expertise.`,
    `education`: `List all degrees, certifications, and relevant educational achievements. Include institution and year if available.`
  },
  `questions`: [
    `Question 1 - About career direction/pivot (make it specific to their background)`,
    `Question 2 - About role preferences (leadership vs individual contributor, or other role-specific preference)`,
    `Question 3 - About work environment (remote, location, company size/type)`,
    `Question 4 - About industry or domain preferences`,
    `Question 5 - About values/priorities (what matters most in next role - growth, stability, mission, compensation, work-life balance, etc.)`
  ]
}

Remember: The questions should feel natural and tailored to their specific background, not generic templates.".

Definition match_prompt_head : jsstring := tpl
"You are an expert career matching AI. Based on the candidate's profile and their answers about career preferences, generate personalized job recommendations.

CANDIDATE PROFILE:
".

Definition match_prompt_middle : jsstring := tpl
"

CANDIDATE'S ANSWERS TO CAREER QUESTIONS:
".

Definition match_prompt_tail : jsstring := tpl
"

Your task:
1. Analyze the candidate's skills, experience, and career goals based on their answers
2. Identify their career direction (continuation, pivot, advancement)
3. Determine their ideal role characteristics, company environment, and location preferences
4. Generate 5-8 realistic, personalized job position recommendations with:
   - Job title that would be a good fit
   - Type of company/industry
   - Key responsibilities that leverage their strengths
   - Required vs. nice-to-have qualifications (mapped to their profile)
   - Estimated salary range (based on their experience level)
   - Why this role is a good fit for them based on their answers
   - Whether this represents a continuation, pivot, or advancement

Format as ONLY valid JSON (no markdown, no extra text):
{
  `careerAnalysis`: {
    `detectedDirection`: `continuation|pivot|advancement`,
    `careerGoals`: `Brief summary of what they're looking for based on answers`,
    `keyStrengths`: [`strength1`, `strength2`, `strength3`],
    `matchCriteria`: {
      `roleType`: `description of ideal roles`,
      `industryPreferences`: [`industry1`, `industry2`],
      `workEnvironment`: `description of preferred work environment based on answers`,
      `locationPreferences`: `description of location preferences based on answers`
    }
  },
  `jobMatches`: [
    {
      `id`: 1,
      `jobTitle`: `Specific job title`,
      `company`: `Company type/example`,
      `industry`: `Industry`,
      `roleType`: `continuation|pivot|advancement`,
      `keyResponsibilities`: [`responsibility1`, `responsibility2`, `responsibility3`],
      `requiredQualifications`: [`qual1`, `qual2`],
      `niceToHave`: [`nice1`, `nice2`],
      `salaryRange`: `$XXX,000-$XXX,000`,
      `workSetup`: `remote|hybrid|in-person`,
      `whyGoodFit`: `Explanation of why this role matches their profile and answers`,
      `growthOpportunity`: `What they could learn/achieve in this role`
    },
    ... (repeat for 5-8 positions)
  ],
  `nextSteps`: [
    `Action 1 to take next`,
    `Action 2 to prepare`,
    `Action 3 for job search`
  ]
}

Make recommendations realistic and thoughtful - not generic. Reference specific skills and experiences from their profile.".

(** [`Q${index + 1}: ${answer}`] *)
Definition answer_line (index : nat) (answer : jsstring) : jsstring :=
  lit "Q" ++ nat_toString (index + 1) ++ lit ": " ++ answer.

(** [array.map((x, index) => f x index)] *)
Fixpoint map_index {A B : Type} (f : A -> nat -> B) (index : nat) (l : list A) : list B :=
  match l with
  | [] => []
  | x :: t => f x index :: map_index f (S index) t
  end.

Definition gemini_model : jsstring := lit "gemini-1.5-pro".

(* ================================================================== *)
(** * Handlers *)
(* ================================================================== *)

Section Server.

Context {num : NumberOps}.

Inductive Body : Type :=
  | Json (v : Value)
  | ErrorPage (message : jsstring).

Record Response : Type := mkResponse
  { status : N; body : Body }.

(** [res.status(code).json({ error, message })] and its variants. *)
Definition error_message (code : N) (error message : jsstring) : Response :=
  mkResponse code (Json (Obj [(lit "error", Str error); (lit "message", Str message)])).

Definition error_details (code : N) (error details : jsstring) : Response :=
  mkResponse code (Json (Obj [(lit "error", Str error); (lit "details", Str details)])).

Definition error_only (code : N) (error : jsstring) : Response :=
  mkResponse code (Json (Obj [(lit "error", Str error)])).

(** [res.json(value)] *)
Definition ok_json (v : Value) : Response := mkResponse 200 (Json v).

(** The application registers no error-handling middleware, so an error
    given to [next] is answered by Express's default handler: the error
    carries no [status] and the response status is still below 400, hence
    500. *)
Definition express_default_error (message : jsstring) : Response :=
  mkResponse 500 (ErrorPage message).

(** ** A small monad for handler bodies

    A computation records the external calls it made and ends in one of
    three ways: it goes on with a value, it has sent the response
    ([return res...]), or it threw. *)
Inductive Step (A : Type) : Type :=
  | Next (a : A)
  | Send (r : Response)
  | Raise (message : jsstring).

Arguments Next {A} a.
Arguments Send {A} r.
Arguments Raise {A} message.

Definition Handler (A : Type) : Type := (list Event * Step A)%type.

Definition ret {A : Type} (a : A) : Handler A := ([], Next a).

Definition send {A : Type} (r : Response) : Handler A := ([], Send r).

Definition raise {A : Type} (message : jsstring) : Handler A := ([], Raise message).

Definition bind {A B : Type} (m : Handler A) (k : A -> Handler B) : Handler B :=
  match m with
  | (tr, Next a) => let (tr', s) := k a in (tr ++ tr', s)
  | (tr, Send r) => (tr, Send r)
  | (tr, Raise e) => (tr, Raise e)
  end.

(** [try { m } catch (error) { h error.message }] *)
Definition catch {A : Type} (m : Handler A) (h : jsstring -> Handler A) : Handler A :=
  match m with
  | (tr, Raise e) => let (tr', s) := h e in (tr ++ tr', s)
  | _ => m
  end.

(** An external call: the event, then the collaborator's outcome. *)
Definition call {A : Type} (e : Event) (o : Outcome A) : Handler A :=
  ([e], match o with Return a => Next a | Throw m => Raise m end).

Definition lift {A : Type} (o : Outcome A) : Handler A :=
  ([], match o with Return a => Next a | Throw m => Raise m end).

(** ** Text extraction *)

Definition extractTextFromPDF (env : Env) (buffer : list byte) : Handler jsstring :=
  catch (call (PdfParse buffer) (pdfParse env buffer))
    (fun message => raise (lit "Failed to extract text from PDF: " ++ message)).

Definition extractTextFromDOCX (env : Env) (buffer : list byte) : Handler jsstring :=
  catch (call (ExtractRawText buffer) (extractRawText env buffer))
    (fun message => raise (lit "Failed to extract text from DOCX: " ++ message)).

(** [buffer.toString('utf-8')] has no failing case for a buffer within the
    upload limit (which is far below the engine's longest string), so the
    [catch] block of the source is never entered. *)
Definition extractTextFromTXT (buffer : list byte) : Handler jsstring :=
  catch (ret (Buffer_toString_utf8 buffer))
    (fun message => raise (lit "Failed to extract text from TXT: " ++ message)).

Definition extractTextFromFile (env : Env) (file : File) : Handler jsstring :=
  let ext := fileExt file in
  if str_eqb ext (lit ".pdf") then extractTextFromPDF env (buffer file)
  else if str_eqb ext (lit ".docx") then extractTextFromDOCX env (buffer file)
  else if str_eqb ext (lit ".txt") then extractTextFromTXT (buffer file)
  else raise (lit "Unsupported file type: " ++ ext).

(** ** Requests *)

(** [req.file] as multer leaves it and [req.body] as the body parsers leave
    it (an object; [{}] when the request carried none). *)
Record Request : Type := mkRequest
  { req_file : option File; req_body : Value }.

(** Whether multer's parser stops a file of [size] bytes at the limit. *)
Definition too_large (env : Env) (size : N) : bool :=
  if limit_reached_is_error env then fileSize_limit <=? size
  else fileSize_limit <? size.

(** [upload.single('file')] on the part of a multipart request that is sent
    under the field name [file], if there is one.  multer skips a part whose
    file name is empty ([if (!filename) return fileStream.resume()]): no
    file is attached and [req.file] stays [undefined].  Any other part goes
    through [fileFilter] first and is then read up to the size limit. *)
Definition upload_single (env : Env) (part : option File) : Outcome (option File) :=
  match part with
  | None => Return None
  | Some file =>
      match originalname file with
      | [] => Return None
      | _ :: _ =>
          match fileFilter file with
          | Reject message => Throw message
          | Accept =>
              if too_large env (N.of_nat (List.length (buffer file)))
              then Throw (lit "File too large")
              else Return (Some file)
          end
      end
  end.

(** ** Steps shared by the two POST handlers *)

(** [if (!process.env.GEMINI_API_KEY) return res.status(500).json(...)] *)
Definition require_api_key (env : Env) : Handler unit :=
  match GEMINI_API_KEY env with
  | Some (_ :: _) => ret tt
  | _ => send (error_only 500 (lit "GEMINI_API_KEY not configured in .env file"))
  end.

(** [model.generateContent(prompt)] followed by [result.response.text()]. *)
Definition ask_gemini (env : Env) (prompt : jsstring) : Handler jsstring :=
  call (GenerateContent gemini_model prompt) (generateContent env gemini_model prompt).

(** [try { parsedResult = JSON.parse(responseText) } catch ...] and the
    final [res.json(parsedResult)]; [error] is the summary of the route.
    [res.json] serializes the value with [JSON.stringify] before it sends
    anything, inside the outer [try] of the handler. *)
Definition reply_parsed (env : Env) (error responseText : jsstring) : Handler Response :=
  match JSON_parse responseText with
  | None => send (error_details 500 error responseText)
  | Some parsedResult =>
      match stack_overflow env Stringify parsedResult with
      | None => ret (ok_json parsedResult)
      | Some message => raise message
      end
  end.

(** What a handler answers once the provider has returned [responseText]:
    [reply_parsed] under the outer [catch], whose summary is [error]. *)
Definition completion_response (env : Env) (error parse_error responseText : jsstring)
  : Response :=
  match JSON_parse responseText with
  | None => error_details 500 parse_error responseText
  | Some parsedResult =>
      match stack_overflow env Stringify parsedResult with
      | None => ok_json parsedResult
      | Some message => error_message 500 error message
      end
  end.

(** The outer [try]/[catch] of a handler and the response it ends with. *)
Definition respond (error : jsstring) (m : Handler Response) : list Event * Response :=
  match m with
  | (tr, Next r) => (tr, r)
  | (tr, Send r) => (tr, r)
  | (tr, Raise message) => (tr, error_message 500 error message)
  end.

(** ** POST /api/analyze-resume *)

(** Lines 143-162: the text comes from the uploaded file when there is one,
    else from [req.body.resumeText] when that is truthy, else it stays ['']. *)
Definition read_resume_text (env : Env) (req : Request) : Handler Value :=
  match req_file req with
  | Some file =>
      catch (bind (extractTextFromFile env file) (fun text => ret (Str text)))
        (fun message =>
           send (error_message 400 (lit "Failed to process uploaded file") message))
  | None =>
      match get (req_body req) (lit "resumeText") with
      | Some v => if ToBoolean (Some v) then ret v else ret (Str [])
      | None => ret (Str [])
      end
  end.

Definition resume_required : Response :=
  error_message 400 (lit "Resume text or file is required")
    (lit "Please provide either a resume file (PDF, DOCX, TXT) or resume text in the request body").

(** Lines 164-170: [!resumeText || resumeText.trim().length === 0].  A
    truthy value that is not a string has no callable [trim]. *)
Definition require_resume_text (resumeText : Value) : Handler jsstring :=
  if negb (ToBoolean (Some resumeText)) then send resume_required
  else
    match resumeText with
    | Str s =>
        match trim s with
        | [] => send resume_required
        | _ => ret s
        end
    | _ => raise (lit "resumeText.trim is not a function")
    end.

(** The template literal of lines 185-223. *)
Definition resume_prompt (resumeText : jsstring) : jsstring :=
  resume_prompt_head ++ resumeText ++ resume_prompt_tail.

(** Lines 143-170 together: the input validation of the route. *)
Definition validated_resume_text (env : Env) (req : Request) : Handler jsstring :=
  bind (read_resume_text env req) require_resume_text.

Definition analyze_resume (env : Env) (req : Request) : list Event * Response :=
  respond (lit "Failed to analyze resume")
    (bind (validated_resume_text env req) (fun text =>
     bind (require_api_key env) (fun _ =>
     bind (ask_gemini env (resume_prompt text)) (fun responseText =>
     reply_parsed env (lit "Failed to parse AI response") responseText)))).

(** The route: [upload.single('file')], then the handler. *)
Definition analyze_resume_route (env : Env) (part : option File) (body : Value)
  : list Event * Response :=
  match upload_single env part with
  | Throw message => ([], express_default_error message)
  | Return file => analyze_resume env (mkRequest file body)
  end.

(** ** POST /api/match-jobs *)

(** Lines 260-268: [const { userProfile, userAnswers } = req.body] and
    [if (!userProfile || !userAnswers)]. *)
Definition missing_fields : Response :=
  error_message 400 (lit "Missing required fields")
    (lit "Please provide userProfile and userAnswers").

Definition require_fields (body : Value) : Handler (Value * Value) :=
  let userProfile := get body (lit "userProfile") in
  let userAnswers := get body (lit "userAnswers") in
  if negb (ToBoolean userProfile) || negb (ToBoolean userAnswers)
  then send missing_fields
  else
    match userProfile, userAnswers with
    | Some profile, Some answers => ret (profile, answers)
    | _, _ => send missing_fields
    end.

(** [userAnswers.map((answer, index) => `Q${index + 1}: ${answer}`).join('\n')];
    only an array has a callable [map]. *)
Definition answers_block (userAnswers : Value) : Outcome jsstring :=
  match userAnswers with
  | Arr items =>
      Return (join newline
                (map_index (fun answer index => answer_line index (ToString answer)) 0 items))
  | _ => Throw (lit "userAnswers.map is not a function")
  end.

(** The text of the template literal of lines 283-341, once its
    substitutions are evaluated. *)
Definition match_prompt (userProfile userAnswers : Value) : Outcome jsstring :=
  let profile := JSON_stringify_2 userProfile in
  match answers_block userAnswers with
  | Return answers =>
      Return (match_prompt_head ++ profile ++ match_prompt_middle
                ++ answers ++ match_prompt_tail)
  | Throw message => Throw message
  end.

(** The error that converting an answer to a string throws, if any: the
    [RangeError] of an array whose conversion exhausts the call stack, or
    else the [TypeError] of a value that has not the built-in conversion. *)
Definition conversion_error (env : Env) (answer : Value) : option jsstring :=
  match answer, stack_overflow env ArrayToString answer with
  | Arr _, Some message => Some message
  | _, _ =>
      if has_default_toString answer then None
      else Some (lit "Cannot convert object to primitive value")
  end.

(** [map] converts the answers in order: the first error ends it. *)
Fixpoint first_error (env : Env) (answers : list Value) : option jsstring :=
  match answers with
  | [] => None
  | answer :: rest =>
      match conversion_error env answer with
      | Some message => Some message
      | None => first_error env rest
      end
  end.

(** The template literal as the engine evaluates it, one substitution after
    the other: [JSON.stringify] on the profile, [userAnswers.map] (on an
    array only) with the conversion of each answer, and then the text
    [match_prompt] gives. *)
Definition render_match_prompt (env : Env) (userProfile userAnswers : Value)
  : Outcome jsstring :=
  match stack_overflow env StringifyIndented userProfile with
  | Some message => Throw message
  | None =>
      match userAnswers with
      | Arr items =>
          match first_error env items with
          | Some message => Throw message
          | None => match_prompt userProfile userAnswers
          end
      | _ => match_prompt userProfile userAnswers
      end
  end.

Definition match_jobs (env : Env) (req : Request) : list Event * Response :=
  respond (lit "Failed to match jobs")
    (bind (require_fields (req_body req)) (fun fields =>
     bind (require_api_key env) (fun _ =>
     bind (lift (render_match_prompt env (fst fields) (snd fields))) (fun prompt =>
     bind (ask_gemini env prompt) (fun responseText =>
     reply_parsed env (lit "Failed to parse job matching response") responseText))))).

(** ** The application

    [app.use(cors({ origin }))] stands in front of every route: an origin
    the callback refuses is an error for Express's default handler and the
    route is not entered. *)
Definition with_cors (origin : option jsstring) (route : list Event * Response)
  : list Event * Response :=
  match cors_origin origin with
  | Allowed => route
  | NotAllowed message => ([], express_default_error message)
  end.

Definition post_analyze_resume (env : Env) (origin : option jsstring)
  (part : option File) (body : Value) : list Event * Response :=
  with_cors origin (analyze_resume_route env part body).

Definition post_match_jobs (env : Env) (origin : option jsstring) (body : Value)
  : list Event * Response :=
  with_cors origin (match_jobs env (mkRequest None body)).

(** [app.get('/api/health', ...)]: [res.json({ status: 'ok' })]. *)
Definition health : list Event * Response :=
  ([], ok_json (Obj [(lit "status", Str (lit "ok"))])).

Definition get_health (origin : option jsstring) : list Event * Response :=
  with_cors origin health.

End Server.

Arguments Next {num A} a.
Arguments Send {num A} r.
Arguments Raise {num A} message.

(* ================================================================== *)
(** * Reference definitions *)
(* ================================================================== *)

(** The definitions of this part do not come from [server.js]: they word
    what the specification says, or what a standard says, so that the code
    can be compared with it. *)

(** ** Origins *)

(** "Any subdomain of a fixed base domain over HTTPS": the origin is
    [https://] followed by a non-empty subdomain part, a dot and the base. *)
Definition https_subdomain_of (base o : jsstring) : Prop :=
  exists sub, sub <> [] /\ o = lit "https://" ++ sub ++ [dot] ++ base.

(** The origins the specification says are permitted. *)
Definition spec_origin_permitted (o : jsstring) : Prop :=
  In o allowedOrigins
  \/ https_subdomain_of (lit "lovable.dev") o
  \/ https_subdomain_of (lit "lovableproject.com") o.

(** What the two patterns accept: [https://], one non-empty label of ASCII
    letters, digits and hyphens, a dot and the base; nothing after it. *)
Definition is_label_unit (c : N) : bool :=
  ((97 <=? c) && (c <=? 122)) || ((65 <=? c) && (c <=? 90))
  || ((48 <=? c) && (c <=? 57)) || (c =? 45).

Definition https_label_of (base o : jsstring) : Prop :=
  exists label, label <> [] /\ Forall (fun c => is_label_unit c = true) label
                /\ o = lit "https://" ++ label ++ [dot] ++ base.

(** ** File extensions *)





(** ** The UTF-8 encoding form *)











(** ** Inputs of the handlers *)

(** The ASCII white space bytes: tab, line feed, vertical tab, form feed,
    carriage return and space. *)
Definition is_blank_byte (b : byte) : bool :=
  existsb (N.eqb (to_N b)) [9; 10; 11; 12; 13; 32].

(** The characters a JSON value can begin with: a double quote, a bracket,
    a brace, the first letter of [true], [false] or [null], a minus sign or
    a digit. *)
Definition starts_json_value (c : N) : bool :=
  (c =? 34) || (c =? 91) || (c =? 123) || (c =? 116) || (c =? 102)
  || (c =? 110) || (c =? 45) || ((48 <=? c) && (c <=? 57)).

(** A response that reports an error: status 400 or 500 and a JSON object
    with a string under [error]. *)
Definition is_error_response {num : NumberOps} (r : Response) : Prop :=
  (status r = 400 \/ status r = 500)
  /\ exists members error,
       body r = Json (Obj members) /\ lookup (lit "error") members = Some (Str error).

(** The same collaborators with [GEMINI_API_KEY] unset. *)
Definition without_key {num : NumberOps} (env : Env) : Env :=
  mkEnv None (pdfParse env) (extractRawText env) (generateContent env)
    (limit_reached_is_error env) (stack_overflow env).

(** ** Sample collaborators and requests *)

(** Numbers carried as their JSON literals, for running the handlers on
    concrete requests: a literal is truthy when its mantissa has a non-zero
    digit. *)
Fixpoint mantissa_nonzero (s : jsstring) : bool :=
  match s with
  | [] => false
  | c :: t =>
      if (c =? 101) || (c =? 69) then false
      else ((49 <=? c) && (c <=? 57)) || mantissa_nonzero t
  end.

Definition literal_numbers : NumberOps :=
  mkNumberOps jsstring mantissa_nonzero (fun s => s) (fun _ => true) (fun s => s).

(** How deep the arrays and objects of a value are nested. *)
Fixpoint nesting {num : NumberOps} (v : Value) : nat :=
  match v with
  | Arr items => S (fold_right (fun x m => Nat.max (nesting x) m) 0%nat items)
  | Obj members =>
      S (fold_right (fun kv m => Nat.max (nesting (snd kv)) m) 0%nat members)
  | _ => 0%nat
  end.

(** An engine whose call stack holds each operation on values nested up to
    1000 deep; the message is V8's. *)
Definition shallow_only {num : NumberOps} (operation : Recursion) (v : Value)
  : option jsstring :=
  if (1000 <? nesting v)%nat then Some (lit "Maximum call stack size exceeded")
  else None.

(** An environment whose PDF parser rejects its input, whose DOCX converter
    returns a fixed text and whose LLM always answers [completion]. *)
Definition sample_env (key : option jsstring) (completion : jsstring)
  : @Env literal_numbers :=
  mkEnv key
    (fun _ => Throw (lit "Invalid PDF structure"))
    (fun _ => Return (lit "Jane Doe, Software Engineer"))
    (fun _ _ => Return completion)
    true shallow_only.

(** A completion wrapped in a markdown fence. *)
Definition fenced_completion : jsstring := lit "```json
{}
```".

Definition sample_key : option jsstring := Some (lit "test-key").

Definition text_request : @Request literal_numbers :=
  mkRequest None
    (Obj [(lit "resumeText", Str (lit "Jane Doe, Software Engineer, 5 years React experience"))]).

Definition blank_request : @Request literal_numbers :=
  mkRequest None (Obj [(lit "resumeText", Str [32; 10; 9; 32])]).

Definition sample_profile : @Value literal_numbers :=
  Obj [(lit "name", Str (lit "Jane Doe")); (lit "skills", Arr [Str (lit "React")])].

Definition answers_request : @Request literal_numbers :=
  mkRequest None
    (Obj [(lit "userProfile", sample_profile);
          (lit "userAnswers", Arr [Str (lit "Continue"); Str (lit "Remote")])]).

Definition string_answers_request : @Request literal_numbers :=
  mkRequest None
    (Obj [(lit "userProfile", sample_profile);
          (lit "userAnswers", Str (lit "Remote work"))]).



Definition docx_file : File := mkFile (lit "cv.docx") [x50; x4b].

Definition pdf_file : File := mkFile (lit "Resume.PDF") [x25; x50; x44; x46].

(** [blank.txt]: a line feed, two spaces and a tab. *)
Definition blank_txt : File := mkFile (lit "blank.txt") [x0a; x20; x20; x09].

(** An environment whose provider call fails. *)
Definition failing_provider_env : @Env literal_numbers :=
  mkEnv sample_key
    (fun _ => Throw (lit "Invalid PDF structure"))
    (fun _ => Return (lit "Jane Doe, Software Engineer"))
    (fun _ _ => Throw (lit "429 Too Many Requests"))
    true shallow_only.

(** A completion that is a JSON document. *)
Definition json_completion : jsstring := tpl "{`questions`: []}".

(** A completion that is a JSON document nested 1001 arrays deep, and the
    value it parses to. *)
Definition deep_completion : jsstring := repeat 91 1001 ++ repeat 93 1001.

Definition deep_value : @Value literal_numbers :=
  Nat.iter 1000 (fun v => Arr [v]) (Arr []).

Definition empty_request : @Request literal_numbers := mkRequest None (Obj []).

Definition numeric_text_request : @Request literal_numbers :=
  mkRequest None (Obj [(lit "resumeText", Num (Number_ofLiteral (lit "42")))]).

Definition profile_only_request : @Request literal_numbers :=
  mkRequest None (Obj [(lit "userProfile", sample_profile)]).

Definition no_answers_request : @Request literal_numbers :=
  mkRequest None
    (Obj [(lit "userProfile", sample_profile); (lit "userAnswers", Arr [])]).



(* ================================================================== *)
(** * Facts about strings *)
(* ================================================================== *)

Lemma str_eqb_eq (a b : jsstring) : str_eqb a b = true <-> a = b.
Proof.
  revert b; induction a as [|x a IH]; intros [|y b]; simpl; split; intro H;
    try reflexivity; try discriminate.
  - apply andb_true_iff in H as [Hxy Hab].
    apply N.eqb_eq in Hxy. apply IH in Hab. now subst.
  - injection H as -> ->. rewrite N.eqb_refl. simpl. now apply IH.
Qed.

Lemma str_eqb_refl (a : jsstring) : str_eqb a a = true.
Proof. now apply str_eqb_eq. Qed.

Lemma includes_In (l : list jsstring) (x : jsstring) :
  includes l x = true <-> In x l.
Proof.
  unfold includes. rewrite existsb_exists. split.
  - intros (y & Hy & E). apply str_eqb_eq in E. now subst.
  - intros H. exists x. split; [assumption | apply str_eqb_refl].
Qed.

Lemma trimStart_nil (s : jsstring) :
  trimStart s = [] <-> forallb is_white s = true.
Proof.
  induction s as [|c s IH]; simpl; [tauto |].
  destruct (is_white c); simpl; [exact IH |].
  split; discriminate.
Qed.

Lemma trimStart_head (s t : jsstring) (c : N) :
  trimStart s = c :: t -> is_white c = false.
Proof.
  induction s as [|x s IH]; simpl; [discriminate |].
  destruct (is_white x) eqn:E; [exact IH |].
  now intros [= <- _].
Qed.

(** [trim] leaves nothing exactly when every code unit is white space. *)
Lemma trim_nil (s : jsstring) : trim s = [] <-> forallb is_white s = true.
Proof.
  unfold trim, trimEnd. rewrite <- trimStart_nil. split.
  - intro H. apply (f_equal (@rev N)) in H. rewrite rev_involutive in H.
    simpl in H. apply trimStart_nil in H.
    destruct (trimStart s) as [|c t] eqn:E; [reflexivity |].
    apply trimStart_head in E.
    rewrite forallb_forall in H. rewrite (H c) in E; [discriminate |].
    apply in_rev. rewrite rev_involutive. now left.
  - intros ->. reflexivity.
Qed.

(* ================================================================== *)
(** * Facts about the regular expression matcher *)
(* ================================================================== *)

Module RegexFacts.
Import Regex.

Lemma Lang_Void_inv (w : jsstring) : Lang Void w -> False.
Proof. intro H; inversion H. Qed.

Lemma Lang_Eps_inv (w : jsstring) : Lang Eps w -> w = [].
Proof. intro H; now inversion H. Qed.

Lemma Lang_Chr_inv (c : N) (w : jsstring) : Lang (Chr c) w -> w = [c].
Proof. intro H; now inversion H. Qed.

Lemma Lang_Class_inv (ranges : list (N * N)) (w : jsstring) :
  Lang (Class ranges) w -> exists c, w = [c] /\ in_ranges ranges c = true.
Proof. intro H; inversion H; subst; eauto. Qed.

Lemma Lang_Seq_inv (r s : re) (w : jsstring) :
  Lang (Seq r s) w -> exists u v, w = u ++ v /\ Lang r u /\ Lang s v.
Proof. intro H; inversion H; subst; eauto. Qed.

Lemma Lang_Alt_inv (r s : re) (w : jsstring) :
  Lang (Alt r s) w -> Lang r w \/ Lang s w.
Proof. intro H; inversion H; subst; auto. Qed.

Lemma Lang_cons (r s : re) (c : N) (u v : jsstring) :
  Lang r (c :: u) -> Lang s v -> Lang (Seq r s) (c :: u ++ v).
Proof. intros Hu Hv. change (c :: u ++ v) with ((c :: u) ++ v). now constructor. Qed.

Lemma nullable_Lang (r : re) : nullable r = true <-> Lang r [].
Proof.
  split.
  - induction r; simpl; intro H; try discriminate.
    + constructor.
    + apply andb_true_iff in H as [H1 H2].
      change (@nil N) with (@nil N ++ []). constructor; auto.
    + apply orb_true_iff in H as [H|H]; [apply LAltL | apply LAltR]; auto.
    + constructor.
  - intro H. remember (@nil N) as w eqn:E.
    induction H; simpl; try discriminate; try reflexivity.
    + apply app_eq_nil in E as [-> ->]. rewrite IHLang1, IHLang2; auto.
    + rewrite IHLang; auto.
    + rewrite IHLang; auto. apply orb_true_r.
Qed.

Lemma star_cons_inv (r : re) (c : N) (w : jsstring) :
  Lang (Star r) (c :: w) ->
  exists u v, w = u ++ v /\ Lang r (c :: u) /\ Lang (Star r) v.
Proof.
  intro H. remember (Star r) as s eqn:Es. remember (c :: w) as cw eqn:Ew.
  revert c w Ew.
  induction H; intros c0 w0 Ew; try discriminate.
  injection Es as ->.
  destruct u as [|x u].
  - simpl in Ew. apply IHLang2; auto.
  - simpl in Ew. injection Ew as -> <-. exists u, v. auto.
Qed.

Lemma deriv_Lang (c : N) (r : re) (w : jsstring) :
  Lang (deriv c r) w <-> Lang r (c :: w).
Proof.
  revert w. induction r as [| |d|ranges|r1 IH1 r2 IH2|r1 IH1 r2 IH2|r IH];
    intro w; simpl.
  - split; intro H; now apply Lang_Void_inv in H.
  - split; intro H; [now apply Lang_Void_inv in H | now apply Lang_Eps_inv in H].
  - destruct (N.eqb_spec c d) as [->|Hne]; split; intro H.
    + apply Lang_Eps_inv in H. subst. constructor.
    + apply Lang_Chr_inv in H. injection H as ->. constructor.
    + now apply Lang_Void_inv in H.
    + apply Lang_Chr_inv in H. congruence.
  - destruct (in_ranges ranges c) eqn:E; split; intro H.
    + apply Lang_Eps_inv in H. subst. now constructor.
    + apply Lang_Class_inv in H as (x & Hx & _). injection Hx as _ ->. constructor.
    + now apply Lang_Void_inv in H.
    + apply Lang_Class_inv in H as (x & Hx & Hin). injection Hx as -> _. congruence.
  - destruct (nullable r1) eqn:En.
    + split; intro H.
      * apply Lang_Alt_inv in H as [H|H].
        -- apply Lang_Seq_inv in H as (u & v & -> & Hu & Hv).
           apply Lang_cons; [now apply IH1 | assumption].
        -- apply IH2 in H. apply nullable_Lang in En.
           change (c :: w) with ([] ++ c :: w). now constructor.
      * apply Lang_Seq_inv in H as (u & v & E & Hu & Hv). destruct u as [|x u].
        -- simpl in E. subst v. apply LAltR. now apply IH2.
        -- simpl in E. injection E as <- ->.
           apply LAltL. constructor; [now apply IH1 | assumption].
    + split; intro H.
      * apply Lang_Seq_inv in H as (u & v & -> & Hu & Hv).
        apply Lang_cons; [now apply IH1 | assumption].
      * apply Lang_Seq_inv in H as (u & v & E & Hu & Hv). destruct u as [|x u].
        -- apply nullable_Lang in Hu. congruence.
        -- simpl in E. injection E as <- ->.
           constructor; [now apply IH1 | assumption].
  - split; intro H.
    + apply Lang_Alt_inv in H as [H|H];
        [apply LAltL; now apply IH1 | apply LAltR; now apply IH2].
    + apply Lang_Alt_inv in H as [H|H];
        [apply LAltL; now apply IH1 | apply LAltR; now apply IH2].
  - split; intro H.
    + apply Lang_Seq_inv in H as (u & v & -> & Hu & Hv).
      change (c :: u ++ v) with ((c :: u) ++ v). constructor; [now apply IH | assumption].
    + apply star_cons_inv in H as (u & v & -> & Hu & Hv).
      constructor; [now apply IH | assumption].
Qed.

Lemma matches_Lang (r : re) (s : jsstring) : matches r s = true <-> Lang r s.
Proof.
  revert r. induction s as [|c s IH]; intro r; simpl.
  - apply nullable_Lang.
  - rewrite IH. apply deriv_Lang.
Qed.

Lemma text_Lang (p u : jsstring) : Lang (text p) u <-> u = p.
Proof.
  revert u. induction p as [|c p IH]; intro u; simpl; split; intro H.
  - now apply Lang_Eps_inv in H.
  - subst. constructor.
  - apply Lang_Seq_inv in H as (a & b & -> & Ha & Hb).
    apply Lang_Chr_inv in Ha. apply IH in Hb. now subst.
  - subst. change (c :: p) with ([c] ++ p). constructor; [constructor | now apply IH].
Qed.

Lemma star_class_Lang (ranges : list (N * N)) (v : jsstring) :
  Lang (Star (Class ranges)) v <-> Forall (fun c => in_ranges ranges c = true) v.
Proof.
  split.
  - intro H. remember (Star (Class ranges)) as s eqn:Es.
    induction H; try discriminate.
    + constructor.
    + injection Es as ->. apply Lang_Class_inv in H as (c & -> & Hc).
      simpl. constructor; auto.
  - induction 1 as [|c v Hc _ IH].
    + constructor.
    + change (c :: v) with ([c] ++ v). constructor; [now constructor | assumption].
Qed.

(** A pattern [prefix [class]+ suffix] accepts exactly the strings made of
    the prefix, a non-empty run of class characters and the suffix. *)
Lemma framed_label_Lang (prefix suffix : jsstring) (ranges : list (N * N)) (o : jsstring) :
  matches (Seq (text prefix) (Seq (Plus (Class ranges)) (text suffix))) o = true <->
  exists label, label <> [] /\ Forall (fun c => in_ranges ranges c = true) label
                /\ o = prefix ++ label ++ suffix.
Proof.
  rewrite matches_Lang. split.
  - intro H. apply Lang_Seq_inv in H as (u & v & -> & Hu & Hv).
    apply text_Lang in Hu. subst u.
    apply Lang_Seq_inv in Hv as (a & b & -> & Ha & Hb).
    apply text_Lang in Hb. subst b.
    apply Lang_Seq_inv in Ha as (x & y & -> & Hx & Hy).
    apply Lang_Class_inv in Hx as (c & -> & Hc).
    exists ([c] ++ y). repeat split.
    + discriminate.
    + simpl. constructor; [assumption | now apply star_class_Lang].
  - intros (label & Hne & Hall & ->).
    constructor; [now apply text_Lang |].
    constructor; [| now apply text_Lang].
    destruct label as [|c label]; [congruence |].
    inversion Hall; subst.
    change (c :: label) with ([c] ++ label).
    constructor; [now constructor | now apply star_class_Lang].
Qed.

End RegexFacts.

(* ================================================================== *)
(** * The CORS origin policy *)
(* ================================================================== *)

Lemma is_label_unit_class (c : N) :
  Regex.in_ranges label_class c = is_label_unit c.
Proof.
  unfold Regex.in_ranges, label_class, is_label_unit. simpl.
  rewrite orb_false_r, !orb_assoc. f_equal.
  destruct (N.eqb_spec c 45) as [->|Hne]; [reflexivity|].
  apply andb_false_iff.
  destruct (N.leb_spec 45 c); [right; apply N.leb_gt; lia | now left].
Qed.

Lemma pattern_https_label (base o : jsstring) :
  Regex.matches
    (Regex.Seq (Regex.text (lit "https://"))
       (Regex.Seq (Regex.Plus (Regex.Class label_class)) (Regex.text ([dot] ++ base)))) o
  = true
  <-> https_label_of base o.
Proof.
  rewrite RegexFacts.framed_label_Lang. unfold https_label_of.
  split; intros (label & Hne & Hall & E); exists label; repeat split; auto.
  - eapply Forall_impl; [| exact Hall].
    intros c Hc. rewrite <- is_label_unit_class. exact Hc.
  - eapply Forall_impl; [| exact Hall].
    intros c Hc. cbv beta. rewrite is_label_unit_class. exact Hc.
Qed.

Lemma cors_origin_nonempty (o : jsstring) :
  o <> [] ->
  cors_origin (Some o) =
  if includes allowedOrigins o
     || Regex.matches lovable_subdomain_re o
     || Regex.matches lovable_project_re o
  then Allowed else NotAllowed (lit "Not allowed by CORS").
Proof. destruct o; [congruence | reflexivity]. Qed.

(** C3, as amended.  The origin callback permits a request exactly when the
    [Origin] header is absent or empty, or is one of the four listed
    origins, or is [https://<label>.lovable.dev] or
    [https://<label>.lovableproject.com] for a single non-empty label of
    ASCII letters, digits and hyphens.  [https://foo.lovable.dev] is
    permitted and [https://evil.com] is not. *)
Theorem cors_origin_allowed_iff :
  (forall origin : option jsstring,
     cors_origin origin = Allowed <->
     match origin with
     | None => True
     | Some o =>
         o = [] \/ In o allowedOrigins
         \/ https_label_of (lit "lovable.dev") o
         \/ https_label_of (lit "lovableproject.com") o
     end)
  /\ cors_origin (Some (lit "https://foo.lovable.dev")) = Allowed
  /\ cors_origin (Some (lit "https://evil.com")) = NotAllowed (lit "Not allowed by CORS").
Proof.
  split; [| split; reflexivity].
  intros [o|]; [| simpl; tauto].
  destruct o as [|c o]; [simpl; tauto |].
  rewrite cors_origin_nonempty by discriminate.
  set (s := c :: o).
  assert (Hsub : Regex.matches lovable_subdomain_re s = true
                 <-> https_label_of (lit "lovable.dev") s)
    by apply pattern_https_label.
  assert (Hprj : Regex.matches lovable_project_re s = true
                 <-> https_label_of (lit "lovableproject.com") s)
    by apply pattern_https_label.
  pose proof (includes_In allowedOrigins s) as Hinc.
  destruct (includes allowedOrigins s);
    destruct (Regex.matches lovable_subdomain_re s);
    destruct (Regex.matches lovable_project_re s); simpl;
    split; intro H; try reflexivity; try discriminate;
    try (right; tauto).
  exfalso. destruct H as [H | [H | [H | H]]].
  - discriminate.
  - apply Hinc in H. discriminate.
  - apply Hsub in H. discriminate.
  - apply Hprj in H. discriminate.
Qed.

(** C3 as the specification states it fails at two origins.  An empty
    [Origin] value is permitted although it is neither listed nor a
    subdomain; [https://a.b.lovable.dev] is an HTTPS subdomain of
    [lovable.dev] and is refused, since the pattern takes one label only. *)
Lemma cors_spec_counterexample :
  (cors_origin (Some []) = Allowed /\ ~ spec_origin_permitted [])
  /\ (spec_origin_permitted (lit "https://a.b.lovable.dev")
      /\ cors_origin (Some (lit "https://a.b.lovable.dev"))
         = NotAllowed (lit "Not allowed by CORS")).
Proof.
  split; split.
  - reflexivity.
  - intros [H | [(sub & _ & H) | (sub & _ & H)]].
    + simpl in H. repeat (destruct H as [H|H]; [discriminate|]). exact H.
    + discriminate.
    + discriminate.
  - right; left. exists (lit "a.b"). split; [discriminate | reflexivity].
  - reflexivity.
Qed.

(* ================================================================== *)
(** * The upload gate *)
(* ================================================================== *)

Lemma lastIndexOf_from_absent (s : jsstring) (c : N) (i found : Z) :
  ~ In c s -> lastIndexOf_from s c i found = found.
Proof.
  revert i found. induction s as [|x s IH]; intros i found Hnot; simpl.
  - reflexivity.
  - destruct (N.eqb_spec x c) as [->|Hne].
    + exfalso. apply Hnot. now left.
    + apply IH. intro Hin. apply Hnot. now right.
Qed.



Lemma slice_at_length (before suffix : jsstring) :
  slice (before ++ suffix) (Z.of_nat (List.length before)) = suffix.
Proof.
  unfold slice.
  destruct (Z.ltb_spec (Z.of_nat (List.length before)) 0) as [Hneg|_]; [lia |].
  rewrite length_app, Z.min_l by lia.
  rewrite Nat2Z.id. rewrite skipn_app, skipn_all, Nat.sub_diag. reflexivity.
Qed.

Lemma slice_minus_one (s : jsstring) :
  slice s (-1) = match rev s with [] => [] | c :: _ => [c] end.
Proof.
  unfold slice. change (-1 <? 0)%Z with true. cbv iota.
  destruct s as [|x s] using rev_ind.
  - reflexivity.
  - rewrite rev_app_distr. simpl rev. simpl app.
    rewrite length_app. simpl List.length.
    replace (Z.to_nat (Z.max (Z.of_nat (List.length s + 1) + -1) 0))
      with (List.length s) by lia.
    rewrite skipn_app, skipn_all, Nat.sub_diag. reflexivity.
Qed.









(** Without a dot, [fileExt] is the last character of the lowercased name
    (nothing for an empty name). *)
Lemma fileExt_dotless (file : File) :
  ~ In dot (originalname file) ->
  fileExt file =
  match rev (toLowerCase (originalname file)) with [] => [] | c :: _ => [c] end.
Proof.
  intro Hnot. unfold fileExt, lastIndexOf.
  rewrite lastIndexOf_from_absent by assumption. apply slice_minus_one.
Qed.

Lemma allowedTypes_length (ext : jsstring) :
  In ext allowedTypes -> (4 <= List.length ext)%nat.
Proof.
  intros [<- | [<- | [<- | []]]]; simpl; lia.
Qed.

Lemma fileFilter_cases (file : File) :
  (fileFilter file = Accept /\ In (fileExt file) allowedTypes)
  \/ (fileFilter file = Reject invalid_file_type /\ ~ In (fileExt file) allowedTypes).
Proof.
  unfold fileFilter. destruct (includes allowedTypes (fileExt file)) eqn:E.
  - left. split; [reflexivity | now apply includes_In].
  - right. split; [reflexivity |]. intro Hin. apply includes_In in Hin. congruence.
Qed.

Lemma fileExt_dotless_not_allowed (file : File) :
  ~ In dot (originalname file) -> ~ In (fileExt file) allowedTypes.
Proof.
  intros Hnot Hin. apply allowedTypes_length in Hin.
  rewrite (fileExt_dotless file Hnot) in Hin.
  destruct (rev (toLowerCase (originalname file))); simpl in Hin; lia.
Qed.


(* ================================================================== *)
(** * The handlers, path by path *)
(* ================================================================== *)

Arguments lit : simpl never.
Arguments tpl : simpl never.
Arguments resume_prompt : simpl never.
Arguments JSON_parse : simpl never.
Arguments trim : simpl never.
Arguments fileExt : simpl never.
Arguments Buffer_toString_utf8 : simpl never.

Section ServerFacts.

Context {num : NumberOps}.

Lemma no_llm_call_nil : no_llm_call [].
Proof. intros model prompt []. Qed.

Lemma no_llm_call_forallb (trace : list Event) :
  forallb (fun e => negb (is_llm_call e)) trace = true -> no_llm_call trace.
Proof.
  intros H model prompt Hin.
  rewrite forallb_forall in H. apply H in Hin. discriminate.
Qed.

(** Extraction talks to [pdf-parse] or [mammoth] at most, never to the LLM
    provider. *)
Lemma extractTextFromFile_trace (env : Env) (file : File) :
  forallb (fun e => negb (is_llm_call e)) (fst (extractTextFromFile env file)) = true.
Proof.
  unfold extractTextFromFile, extractTextFromPDF, extractTextFromDOCX,
    extractTextFromTXT.
  destruct (str_eqb (fileExt file) (lit ".pdf")).
  { destruct (pdfParse env (buffer file)); reflexivity. }
  destruct (str_eqb (fileExt file) (lit ".docx")).
  { destruct (extractRawText env (buffer file)); reflexivity. }
  destruct (str_eqb (fileExt file) (lit ".txt")); reflexivity.
Qed.

Lemma read_resume_text_trace (env : Env) (req : Request) :
  forallb (fun e => negb (is_llm_call e)) (fst (read_resume_text env req)) = true.
Proof.
  unfold read_resume_text. destruct (req_file req) as [file|].
  - pose proof (extractTextFromFile_trace env file) as H.
    destruct (extractTextFromFile env file) as [tr [text|r|m]]; simpl in *;
      rewrite ?app_nil_r; exact H.
  - destruct (get (req_body req) (lit "resumeText")) as [v|]; [| reflexivity].
    destruct (ToBoolean (Some v)); reflexivity.
Qed.

Lemma require_resume_text_trace (v : Value) : fst (require_resume_text v) = [].
Proof.
  unfold require_resume_text.
  destruct (negb (ToBoolean (Some v))); [reflexivity |].
  destruct v; try reflexivity. destruct (trim s); reflexivity.
Qed.

Lemma validated_resume_text_trace (env : Env) (req : Request) :
  forallb (fun e => negb (is_llm_call e)) (fst (validated_resume_text env req)) = true.
Proof.
  unfold validated_resume_text.
  pose proof (read_resume_text_trace env req) as H.
  destruct (read_resume_text env req) as [tr [v|r|m]]; simpl in *; try exact H.
  pose proof (require_resume_text_trace v) as Hv.
  destruct (require_resume_text v) as [tr' st]. simpl in *. subst tr'.
  rewrite app_nil_r. exact H.
Qed.

(** The response of the analyze-resume handler along each of its paths. *)
Lemma analyze_resume_paths (env : Env) (req : Request) :
  analyze_resume env req =
  match validated_resume_text env req with
  | (tr, Next text) =>
      match GEMINI_API_KEY env with
      | Some (_ :: _) =>
          (tr ++ [GenerateContent gemini_model (resume_prompt text)],
           match generateContent env gemini_model (resume_prompt text) with
           | Return responseText =>
               completion_response env (lit "Failed to analyze resume")
                 (lit "Failed to parse AI response") responseText
           | Throw message => error_message 500 (lit "Failed to analyze resume") message
           end)
      | _ => (tr, error_only 500 (lit "GEMINI_API_KEY not configured in .env file"))
      end
  | (tr, Send r) => (tr, r)
  | (tr, Raise message) => (tr, error_message 500 (lit "Failed to analyze resume") message)
  end.
Proof.
  unfold analyze_resume.
  destruct (validated_resume_text env req) as [tr [text|r|m]]; try reflexivity.
  unfold require_api_key, ask_gemini, call, reply_parsed, completion_response.
  destruct (GEMINI_API_KEY env) as [[|c key]|]; simpl; rewrite ?app_nil_r;
    try reflexivity.
  destruct (generateContent env gemini_model (resume_prompt text)) as [responseText|m];
    simpl; [| reflexivity].
  destruct (JSON_parse responseText) as [v|]; simpl; rewrite ?app_nil_r;
    [| reflexivity].
  destruct (stack_overflow env Stringify v); simpl; rewrite ?app_nil_r; reflexivity.
Qed.

Lemma require_fields_cases (body : Value) :
  (exists profile answers,
      get body (lit "userProfile") = Some profile
      /\ get body (lit "userAnswers") = Some answers
      /\ ToBoolean (Some profile) = true /\ ToBoolean (Some answers) = true
      /\ require_fields body = ([], Next (profile, answers)))
  \/ ((ToBoolean (get body (lit "userProfile")) = false
       \/ ToBoolean (get body (lit "userAnswers")) = false)
      /\ require_fields body = ([], Send missing_fields)).
Proof.
  unfold require_fields, ret, send.
  destruct (get body (lit "userProfile")) as [profile|];
    [| right; split; [now left | reflexivity]].
  destruct (get body (lit "userAnswers")) as [answers|];
    [| right; split; [now right | simpl; rewrite orb_true_r; reflexivity]].
  destruct (ToBoolean (Some profile)) eqn:Ep;
    [| right; split; [now left | reflexivity]].
  destruct (ToBoolean (Some answers)) eqn:Ea;
    [| right; split; [now right | reflexivity]].
  left. exists profile, answers. repeat split; auto.
Qed.

(** The response of the match-jobs handler once both fields are there. *)
Lemma match_jobs_paths (env : Env) (req : Request) (profile answers : Value) :
  require_fields (req_body req) = ([], Next (profile, answers)) ->
  match_jobs env req =
  match GEMINI_API_KEY env with
  | Some (_ :: _) =>
      match render_match_prompt env profile answers with
      | Return prompt =>
          ([GenerateContent gemini_model prompt],
           match generateContent env gemini_model prompt with
           | Return responseText =>
               completion_response env (lit "Failed to match jobs")
                 (lit "Failed to parse job matching response") responseText
           | Throw message => error_message 500 (lit "Failed to match jobs") message
           end)
      | Throw message => ([], error_message 500 (lit "Failed to match jobs") message)
      end
  | _ => ([], error_only 500 (lit "GEMINI_API_KEY not configured in .env file"))
  end.
Proof.
  intro Hf. unfold match_jobs. rewrite Hf.
  unfold require_api_key, ask_gemini, call, reply_parsed, lift, completion_response.
  destruct (GEMINI_API_KEY env) as [[|c key]|]; simpl; try reflexivity.
  destruct (render_match_prompt env profile answers) as [prompt|m]; simpl;
    [| reflexivity].
  destruct (generateContent env gemini_model prompt) as [responseText|m];
    simpl; [| reflexivity].
  destruct (JSON_parse responseText) as [v|]; [| reflexivity].
  destruct (stack_overflow env Stringify v); reflexivity.
Qed.

(** The template renders exactly when the profile is within the call
    stack, the answers are an array and each of them converts. *)
Lemma render_match_prompt_cases (env : Env) (profile answers : Value) :
  (exists items,
      stack_overflow env StringifyIndented profile = None /\ answers = Arr items
      /\ first_error env items = None
      /\ render_match_prompt env profile answers = match_prompt profile answers)
  \/ (exists message,
        render_match_prompt env profile answers = Throw message
        /\ (stack_overflow env StringifyIndented profile = Some message
            \/ (stack_overflow env StringifyIndented profile = None /\ isArray answers = false
                /\ message = lit "userAnswers.map is not a function")
            \/ (stack_overflow env StringifyIndented profile = None
                /\ exists items, answers = Arr items
                                 /\ first_error env items = Some message))).
Proof.
  unfold render_match_prompt.
  destruct (stack_overflow env StringifyIndented profile) as [message|]; [right; eauto |].
  destruct answers as [| b | n | s | items | members];
    try (right; eexists; split; [reflexivity |]; right; left; auto).
  destruct (first_error env items) as [message|] eqn:E.
  - right. exists message. split; [reflexivity |]. right; right. eauto.
  - left. eauto.
Qed.

Lemma conversion_error_None (env : Env) (answer : Value) :
  conversion_error env answer = None <->
  has_default_toString answer = true
  /\ (isArray answer = true -> stack_overflow env ArrayToString answer = None).
Proof.
  assert (Hplain : forall d : bool,
             (if d then None else Some (lit "Cannot convert object to primitive value"))
             = None <-> d = true).
  { intros []; split; (reflexivity || discriminate). }
  unfold conversion_error.
  destruct answer as [| b | n | s | items | members]; cbv iota; cbn [isArray];
    try (rewrite Hplain; split; [intro H; split; [exact H | discriminate] | tauto]).
  destruct (stack_overflow env ArrayToString (Arr items)) as [message|].
  - split; [discriminate |]. intros [_ H]. now apply H.
  - rewrite Hplain. split; [intro H; split; [exact H | reflexivity] | tauto].
Qed.

Lemma first_error_None (env : Env) (answers : list Value) :
  first_error env answers = None <->
  forall answer, In answer answers ->
    has_default_toString answer = true
    /\ (isArray answer = true -> stack_overflow env ArrayToString answer = None).
Proof.
  induction answers as [|a answers IH]; simpl.
  - split; [intros _ x [] | reflexivity].
  - destruct (conversion_error env a) as [message|] eqn:E.
    + split; [discriminate |]. intro H.
      apply (conversion_error_None env a) in H as He; [| now left]. congruence.
    + rewrite IH. apply conversion_error_None in E. split.
      * intros H x [<- | Hx]; auto.
      * intros H x Hx. apply H. now right.
Qed.

Lemma first_error_strings (env : Env) (answers : list jsstring) :
  first_error env (List.map Str answers) = None.
Proof. induction answers as [|a answers IH]; [reflexivity | exact IH]. Qed.

Lemma match_jobs_missing (env : Env) (req : Request) :
  require_fields (req_body req) = ([], Send missing_fields) ->
  match_jobs env req = ([], missing_fields).
Proof. intro Hf. unfold match_jobs. rewrite Hf. reflexivity. Qed.

End ServerFacts.

(* ================================================================== *)
(** * [JSON.parse]: the fuel is enough *)
(* ================================================================== *)

Section ParserFuel.

Context {num : NumberOps}.

Lemma skip_ws_length (s : jsstring) : (List.length (skip_ws s) <= List.length s)%nat.
Proof.
  induction s as [|c s IH]; simpl; [lia |].
  destruct (is_json_ws c); simpl; lia.
Qed.

Lemma skip_ws_cons (s t : jsstring) (c : N) :
  skip_ws s = c :: t -> (List.length t < List.length s)%nat.
Proof.
  intro H. pose proof (skip_ws_length s) as L. rewrite H in L. simpl in L. lia.
Qed.

Lemma strip_prefix_length (p s r : jsstring) :
  strip_prefix p s = Some r -> (List.length r + List.length p = List.length s)%nat.
Proof.
  revert s. induction p as [|a p IH]; intros [|b s]; simpl; try discriminate.
  - intros [= <-]. simpl. lia.
  - intros [= <-]. simpl. lia.
  - destruct (a =? b); [| discriminate]. intro H. apply IH in H. lia.
Qed.

Lemma span_digits_length (s ds r : jsstring) :
  span_digits s = (ds, r) -> (List.length r <= List.length s)%nat.
Proof.
  revert ds r. induction s as [|c s IH]; simpl; intros ds r.
  - intros [= _ <-]. simpl. lia.
  - destruct (is_digit c).
    + destruct (span_digits s) as [ds' r'] eqn:E. intros [= _ <-].
      specialize (IH ds' r' eq_refl). lia.
    + intros [= _ <-]. simpl. lia.
Qed.

Lemma parse_string_body_length (s acc str r : jsstring) :
  parse_string_body s acc = Some (str, r) -> (List.length r < List.length s)%nat.
Proof.
  remember (List.length s) as n eqn:En.
  assert (Hn : (List.length s <= n)%nat) by lia. clear En.
  revert s acc Hn. induction n as [|n IH]; intros s acc Hn.
  - destruct s; simpl in *; [discriminate | lia].
  - destruct s as [|c t]; simpl in *; [discriminate |].
    destruct (c =? 34); [intros [= _ <-]; lia |].
    destruct (c =? 92).
    + destruct t as [|e t1]; [discriminate |].
      destruct (e =? 117).
      * destruct t1 as [|h1 [|h2 [|h3 [|h4 t2]]]]; try discriminate.
        destruct (hex4 h1 h2 h3 h4); [| discriminate].
        intro H. apply IH in H; simpl in *; lia.
      * destruct (simple_escape e); [| discriminate].
        intro H. apply IH in H; simpl in *; lia.
    + destruct (c <? 32); [discriminate |].
      intro H. apply IH in H; simpl in *; lia.
Qed.

Lemma lex_int_length (s ds r : jsstring) :
  lex_int s = Some (ds, r) -> (List.length r < List.length s)%nat.
Proof.
  unfold lex_int. destruct s as [|c t]; [discriminate |].
  destruct (c =? 48); [intros [= _ <-]; simpl; lia |].
  destruct (is_digit c) eqn:Ed; [| discriminate].
  simpl. rewrite Ed. destruct (span_digits t) as [ds' r'] eqn:E.
  intros [= _ <-]. apply span_digits_length in E. simpl. lia.
Qed.

Lemma lex_frac_length (s fs r : jsstring) :
  lex_frac s = Some (fs, r) -> (List.length r <= List.length s)%nat.
Proof.
  unfold lex_frac. destruct s as [|c t]; [intros [= _ <-]; simpl; lia |].
  destruct (c =? 46); [| intros [= _ <-]; simpl; lia].
  destruct (span_digits t) as [[|d ds] r'] eqn:E; [discriminate |].
  intros [= _ <-]. apply span_digits_length in E. simpl. lia.
Qed.

Lemma lex_exp_length (s es r : jsstring) :
  lex_exp s = Some (es, r) -> (List.length r <= List.length s)%nat.
Proof.
  unfold lex_exp. destruct s as [|c t]; [intros [= _ <-]; simpl; lia |].
  destruct ((c =? 101) || (c =? 69)); [| intros [= _ <-]; simpl; lia].
  destruct t as [|d t'].
  - simpl. discriminate.
  - destruct ((d =? 43) || (d =? 45)).
    + destruct (span_digits t') as [[|x ds] r'] eqn:E; [discriminate |].
      intros [= _ <-]. apply span_digits_length in E. simpl. lia.
    + destruct (span_digits (d :: t')) as [[|x ds] r'] eqn:E; [discriminate |].
      intros [= _ <-]. apply span_digits_length in E. simpl in *. lia.
Qed.

Lemma lex_number_length (s lexeme r : jsstring) :
  lex_number s = Some (lexeme, r) -> (List.length r < List.length s)%nat.
Proof.
  unfold lex_number.
  assert (Hsign : forall sign s1,
             match s with
             | c :: t => if c =? 45 then ([45], t) else ([], s)
             | [] => ([], s)
             end = (sign, s1) -> (List.length s1 <= List.length s)%nat).
  { intros sign s1. destruct s as [|c t]; [intros [= _ <-]; lia |].
    destruct (c =? 45); intros [= _ <-]; simpl; lia. }
  destruct (match s with
            | c :: t => if c =? 45 then ([45], t) else ([], s)
            | [] => ([], s)
            end) as [sign s1] eqn:E.
  specialize (Hsign sign s1 eq_refl).
  destruct (lex_int s1) as [[ds s2]|] eqn:Ei; [| discriminate].
  destruct (lex_frac s2) as [[fs s3]|] eqn:Ef; [| discriminate].
  destruct (lex_exp s3) as [[es s4]|] eqn:Ee; [| discriminate].
  intros [= _ <-].
  apply lex_int_length in Ei. apply lex_frac_length in Ef. apply lex_exp_length in Ee.
  lia.
Qed.

(** A successful parse consumes input. *)
Lemma parse_progress (fuel : nat) :
  (forall s v r, parse_value fuel s = Some (v, r) -> (List.length r < List.length s)%nat)
  /\ (forall s acc v r,
        parse_elements fuel s acc = Some (v, r) -> (List.length r < List.length s)%nat)
  /\ (forall s acc v r,
        parse_members fuel s acc = Some (v, r) -> (List.length r < List.length s)%nat).
Proof.
  induction fuel as [|fuel (IHv & IHe & IHm)]; [repeat split; discriminate |].
  split; [| split].
  - intros s v r. cbn [parse_value].
    destruct (skip_ws s) as [|c t] eqn:Es; [discriminate |].
    apply skip_ws_cons in Es.
    destruct (c =? 34).
    { destruct (parse_string_body t []) as [[str r']|] eqn:E; [| discriminate].
      intros [= _ <-]. apply parse_string_body_length in E. lia. }
    destruct (c =? 91).
    { destruct (skip_ws t) as [|d t'] eqn:Et; [discriminate |].
      apply skip_ws_cons in Et.
      destruct (d =? 93); [intros [= _ <-]; lia |].
      intro H. apply IHe in H. lia. }
    destruct (c =? 123).
    { destruct (skip_ws t) as [|d t'] eqn:Et; [discriminate |].
      apply skip_ws_cons in Et.
      destruct (d =? 125); [intros [= _ <-]; lia |].
      intro H. apply IHm in H. lia. }
    destruct (c =? 116).
    { destruct (strip_prefix (lit "true") (c :: t)) as [r'|] eqn:E;
        cbn [option_map]; [| discriminate].
      intros [= _ <-]. apply strip_prefix_length in E. simpl in E. lia. }
    destruct (c =? 102).
    { destruct (strip_prefix (lit "false") (c :: t)) as [r'|] eqn:E;
        cbn [option_map]; [| discriminate].
      intros [= _ <-]. apply strip_prefix_length in E. simpl in E. lia. }
    destruct (c =? 110).
    { destruct (strip_prefix (lit "null") (c :: t)) as [r'|] eqn:E;
        cbn [option_map]; [| discriminate].
      intros [= _ <-]. apply strip_prefix_length in E. simpl in E. lia. }
    destruct (lex_number (c :: t)) as [[lexeme r']|] eqn:E; [| discriminate].
    intros [= _ <-]. apply lex_number_length in E. simpl in E. lia.
  - intros s acc v r. cbn [parse_elements].
    destruct (parse_value fuel s) as [[v' r']|] eqn:E; [| discriminate].
    apply IHv in E.
    destruct (skip_ws r') as [|c t] eqn:Er; [discriminate |].
    apply skip_ws_cons in Er.
    destruct (c =? 44); [intro H; apply IHe in H; lia |].
    destruct (c =? 93); [| discriminate].
    intros [= _ <-]. lia.
  - intros s acc v r. cbn [parse_members].
    destruct (skip_ws s) as [|q t] eqn:Es; [discriminate |].
    apply skip_ws_cons in Es.
    destruct (q =? 34); [| discriminate].
    destruct (parse_string_body t []) as [[k r0]|] eqn:Ek; [| discriminate].
    apply parse_string_body_length in Ek.
    destruct (skip_ws r0) as [|colon r1] eqn:Er0; [discriminate |].
    apply skip_ws_cons in Er0.
    destruct (colon =? 58); [| discriminate].
    destruct (parse_value fuel r1) as [[v' r2]|] eqn:Ev; [| discriminate].
    apply IHv in Ev.
    destruct (skip_ws r2) as [|c t2] eqn:Er2; [discriminate |].
    apply skip_ws_cons in Er2.
    destruct (c =? 44); [intro H; apply IHm in H; lia |].
    destruct (c =? 125); [| discriminate].
    intros [= _ <-]. lia.
Qed.

(** Beyond twice the length of the input, one more unit of fuel changes
    nothing. *)
Lemma parse_fuel_step (fuel : nat) :
  (forall s, (2 * List.length s + 1 <= fuel)%nat ->
             parse_value (S fuel) s = parse_value fuel s)
  /\ (forall s acc, (2 * List.length s + 2 <= fuel)%nat ->
                    parse_elements (S fuel) s acc = parse_elements fuel s acc)
  /\ (forall s acc, (2 * List.length s + 2 <= fuel)%nat ->
                    parse_members (S fuel) s acc = parse_members fuel s acc).
Proof.
  induction fuel as [|fuel (IHv & IHe & IHm)]; [repeat split; intros; lia |].
  split; [| split].
  - intros s Hs. cbn [parse_value].
    destruct (skip_ws s) as [|c t] eqn:Es; [reflexivity |].
    apply skip_ws_cons in Es.
    destruct (c =? 34); [reflexivity |].
    destruct (c =? 91).
    { destruct (skip_ws t) as [|d t'] eqn:Et; [reflexivity |].
      destruct (d =? 93); [reflexivity |]. apply IHe. lia. }
    destruct (c =? 123); [| reflexivity].
    destruct (skip_ws t) as [|d t'] eqn:Et; [reflexivity |].
    destruct (d =? 125); [reflexivity |]. apply IHm. lia.
  - intros s acc Hs. cbn [parse_elements].
    rewrite (IHv s) by lia.
    destruct (parse_value fuel s) as [[v r]|] eqn:E; [| reflexivity].
    apply (proj1 (parse_progress fuel)) in E.
    destruct (skip_ws r) as [|c t] eqn:Er; [reflexivity |].
    apply skip_ws_cons in Er.
    destruct (c =? 44); [| reflexivity]. apply IHe. lia.
  - intros s acc Hs. cbn [parse_members].
    destruct (skip_ws s) as [|q t] eqn:Es; [reflexivity |].
    apply skip_ws_cons in Es.
    destruct (q =? 34); [| reflexivity].
    destruct (parse_string_body t []) as [[k r0]|] eqn:Ek; [| reflexivity].
    apply parse_string_body_length in Ek.
    destruct (skip_ws r0) as [|colon r1] eqn:Er0; [reflexivity |].
    apply skip_ws_cons in Er0.
    destruct (colon =? 58); [| reflexivity].
    rewrite (IHv r1) by lia.
    destruct (parse_value fuel r1) as [[v r2]|] eqn:Ev; [| reflexivity].
    apply (proj1 (parse_progress fuel)) in Ev.
    destruct (skip_ws r2) as [|c t2] eqn:Er2; [reflexivity |].
    apply skip_ws_cons in Er2.
    destruct (c =? 44); [| reflexivity]. apply IHm. lia.
Qed.

(** The fuel [JSON_parse] starts with is enough: with any larger amount the
    parser returns the same result. *)
Lemma parse_fuel_enough (text : jsstring) (fuel : nat) :
  (2 * List.length text + 2 <= fuel)%nat ->
  parse_value fuel text = parse_value (2 * List.length text + 2) text.
Proof.
  intro H. induction H as [|fuel Hle IH]; [reflexivity |].
  rewrite <- IH. apply (proj1 (parse_fuel_step fuel)). lia.
Qed.
End ParserFuel.

(* ================================================================== *)
(** * The routes *)
(* ================================================================== *)

Section Routes.

Context {num : NumberOps}.


Lemma llm_call_in_analyze (env : Env) (req : Request) (model prompt : jsstring) :
  In (GenerateContent model prompt) (fst (analyze_resume env req)) ->
  exists tr text,
    validated_resume_text env req = (tr, Next text)
    /\ model = gemini_model /\ prompt = resume_prompt text
    /\ analyze_resume env req =
       (tr ++ [GenerateContent gemini_model (resume_prompt text)],
        match generateContent env gemini_model (resume_prompt text) with
        | Return responseText =>
            completion_response env (lit "Failed to analyze resume")
              (lit "Failed to parse AI response") responseText
        | Throw message => error_message 500 (lit "Failed to analyze resume") message
        end).
Proof.
  rewrite analyze_resume_paths.
  pose proof (no_llm_call_forallb _ (validated_resume_text_trace env req)) as Hno.
  destruct (validated_resume_text env req) as [tr [text|r|m]]; simpl in Hno.
  - destruct (GEMINI_API_KEY env) as [[|c key]|]; simpl;
      try (intro Hin; now apply Hno in Hin).
    intro Hin. apply in_app_or in Hin as [Hin | [E | []]];
      [now apply Hno in Hin |].
    injection E as <- <-. exists tr, text. repeat split; reflexivity.
  - simpl. intro Hin. now apply Hno in Hin.
  - simpl. intro Hin. now apply Hno in Hin.
Qed.

Lemma llm_call_in_match (env : Env) (req : Request) (model prompt : jsstring) :
  In (GenerateContent model prompt) (fst (match_jobs env req)) ->
  model = gemini_model
  /\ match_jobs env req =
     ([GenerateContent gemini_model prompt],
      match generateContent env gemini_model prompt with
      | Return responseText =>
          completion_response env (lit "Failed to match jobs")
            (lit "Failed to parse job matching response") responseText
      | Throw message => error_message 500 (lit "Failed to match jobs") message
      end).
Proof.
  destruct (require_fields_cases (req_body req))
    as [(profile & answers & _ & _ & _ & _ & Hf) | [_ Hf]].
  - rewrite (match_jobs_paths env req profile answers Hf).
    destruct (GEMINI_API_KEY env) as [[|c key]|]; simpl; try tauto.
    destruct (render_match_prompt env profile answers) as [p|m]; simpl; [| tauto].
    intros [E | []]. injection E as <- <-. split; reflexivity.
  - rewrite (match_jobs_missing env req Hf). simpl. tauto.
Qed.

(** C1.  Whenever a handler has asked the provider and the completion it
    got is text that [JSON.parse] rejects, the response has status 500 and
    its body is the JSON object with the route's parse-error summary under
    [error] and the completion itself, unchanged, under [details].  The
    text given to [JSON.parse] is the completion as returned. *)
Theorem unparsable_completion_gives_500
        (env : Env) (req : Request) (model prompt text : jsstring) :
  generateContent env model prompt = Return text ->
  JSON_parse text = None ->
  (In (GenerateContent model prompt) (fst (analyze_resume env req)) ->
   snd (analyze_resume env req)
   = mkResponse 500
       (Json (Obj [(lit "error", Str (lit "Failed to parse AI response"));
                   (lit "details", Str text)])))
  /\ (In (GenerateContent model prompt) (fst (match_jobs env req)) ->
      snd (match_jobs env req)
      = mkResponse 500
          (Json (Obj [(lit "error", Str (lit "Failed to parse job matching response"));
                      (lit "details", Str text)]))).
Proof.
  intros Hllm Hparse. split; intro Hin.
  - apply llm_call_in_analyze in Hin as (tr & s & _ & -> & -> & ->).
    simpl. unfold completion_response. rewrite Hllm, Hparse. reflexivity.
  - apply llm_call_in_match in Hin as (-> & ->).
    simpl. unfold completion_response. rewrite Hllm, Hparse. reflexivity.
Qed.

(** C2.  With [GEMINI_API_KEY] unset, a request that passes the input
    validation of its route is answered with status 500 and the JSON object
    whose one member is [error], with the text [GEMINI_API_KEY not configured
    in .env file]; the trace holds no call to the provider (on the match
    route it is empty). *)
Theorem missing_api_key_gives_500 (env : Env) (req : Request) :
  GEMINI_API_KEY env = None ->
  (forall text, snd (validated_resume_text env req) = Next text ->
     snd (analyze_resume env req)
     = mkResponse 500
         (Json (Obj [(lit "error",
                      Str (lit "GEMINI_API_KEY not configured in .env file"))]))
     /\ forall model prompt,
          ~ In (GenerateContent model prompt) (fst (analyze_resume env req)))
  /\ (ToBoolean (get (req_body req) (lit "userProfile")) = true ->
      ToBoolean (get (req_body req) (lit "userAnswers")) = true ->
      match_jobs env req
      = ([], mkResponse 500
               (Json (Obj [(lit "error",
                            Str (lit "GEMINI_API_KEY not configured in .env file"))])))).
Proof.
  intro Hkey. split.
  - intros text Hv. rewrite analyze_resume_paths.
    pose proof (no_llm_call_forallb _ (validated_resume_text_trace env req)) as Hno.
    destruct (validated_resume_text env req) as [tr st]. simpl in Hv, Hno. subst st.
    rewrite Hkey. split; [reflexivity | exact Hno].
  - intros Hp Ha.
    destruct (require_fields_cases (req_body req))
      as [(profile & answers & _ & _ & _ & _ & Hf) | [[H|H] _]]; try congruence.
    rewrite (match_jobs_paths env req profile answers Hf), Hkey. reflexivity.
Qed.


(** C5.  When the resume text obtained from the file or from the body is
    empty or consists of white space only, so that nothing is left of it
    after trimming, the request is answered with HTTP 400 and the error
    [Resume text or file is required], and the provider is not called. *)
Theorem blank_resume_text_rejected
        (env : Env) (req : Request) (tr : list Event) (text : jsstring) :
  read_resume_text env req = (tr, Next (Str text)) ->
  forallb is_white text = true ->
  trim text = []
  /\ analyze_resume env req
     = (tr, mkResponse 400
              (Json (Obj [(lit "error", Str (lit "Resume text or file is required"));
                          (lit "message",
                           Str (lit "Please provide either a resume file (PDF, DOCX, TXT) or resume text in the request body"))])))
  /\ forall model prompt,
       ~ In (GenerateContent model prompt) (fst (analyze_resume env req)).
Proof.
  intros Hread Hwhite.
  assert (Hblank : trim text = []) by now apply trim_nil.
  split; [exact Hblank |].
  assert (Hv : validated_resume_text env req = (tr, Send resume_required)).
  { unfold validated_resume_text. rewrite Hread. simpl.
    unfold require_resume_text.
    destruct (negb (ToBoolean (Some (Str text)))); simpl;
      [| rewrite Hblank; simpl]; now rewrite app_nil_r. }
  pose proof (no_llm_call_forallb _ (validated_resume_text_trace env req)) as Hno.
  rewrite analyze_resume_paths, Hv in *. simpl in Hno. split; [reflexivity | exact Hno].
Qed.

End Routes.

(* ================================================================== *)
(** * Uploads: the gate in the route, and text files *)
(* ================================================================== *)















(** ** The decoder accepts nothing but UTF-8 *)



Lemma to_N_lt (b : byte) : to_N b < 256.
Proof. pose proof (to_N_bounded b). lia. Qed.

Lemma land_mod (b k : N) : N.land b (N.ones k) = b mod 2 ^ k.
Proof. apply N.land_ones. Qed.













Section Uploads.

Context {num : NumberOps}.




(** C9.  A file whose name has no dot is never accepted: [lastIndexOf] is
    [-1], [slice(-1)] keeps at most the last character of the lowercased
    name, and no allowed extension is that short.  If it has a name at all
    it is refused with the gate's error; a part without a name is no file
    for multer. *)
Theorem dotless_name_rejected (env : Env) (file : File) :
  ~ In dot (originalname file) ->
  lastIndexOf (originalname file) dot = (-1)%Z
  /\ fileExt file =
     match rev (toLowerCase (originalname file)) with [] => [] | c :: _ => [c] end
  /\ (List.length (fileExt file) <= 1)%nat
  /\ ~ In (fileExt file) [lit ".pdf"; lit ".docx"; lit ".txt"]
  /\ fileFilter file
     = Reject (lit "Invalid file type. Only PDF, DOCX, and TXT files are allowed.")
  /\ (forall approved, upload_single env (Some file) <> Return (Some approved))
  /\ (originalname file <> [] ->
      upload_single env (Some file)
      = Throw (lit "Invalid file type. Only PDF, DOCX, and TXT files are allowed.")).
Proof.
  intro Hnot.
  assert (Hshort := fileExt_dotless_not_allowed file Hnot).
  assert (Hrej : fileFilter file = Reject invalid_file_type).
  { destruct (fileFilter_cases file) as [[_ Hin] | [H _]]; [contradiction | exact H]. }
  assert (Hext := fileExt_dotless file Hnot).
  split; [| split; [| split; [| split; [| split; [| split]]]]].
  - unfold lastIndexOf. now apply lastIndexOf_from_absent.
  - exact Hext.
  - rewrite Hext. destruct (rev (toLowerCase (originalname file))); simpl; lia.
  - exact Hshort.
  - exact Hrej.
  - intros approved. unfold upload_single. rewrite Hrej.
    destruct (originalname file); discriminate.
  - intro Hname. unfold upload_single. rewrite Hrej.
    destruct (originalname file); [contradiction | reflexivity].
Qed.

End Uploads.

Lemma dotless_name_rejected_witness :
  fileFilter (mkFile (lit "resume") [])
  = Reject (lit "Invalid file type. Only PDF, DOCX, and TXT files are allowed.")
  /\ fileExt (mkFile (lit "resume") []) = [101]
  /\ upload_single (sample_env sample_key fenced_completion)
       (Some (mkFile (lit "resume") []))
     = Throw (lit "Invalid file type. Only PDF, DOCX, and TXT files are allowed.").
Proof.
  assert (H : ~ In dot (originalname (mkFile (lit "resume") []))).
  { simpl. unfold dot. intros [E|[E|[E|[E|[E|[E|[]]]]]]]; discriminate. }
  destruct (dotless_name_rejected (sample_env sample_key fenced_completion)
              (mkFile (lit "resume") []) H)
    as (_ & Hext & _ & _ & Hrej & _ & Hup).
  split; [exact Hrej |]. split; [exact Hext |].
  apply Hup. discriminate.
Defined.





(* ================================================================== *)
(** * The job-matching prompt *)
(* ================================================================== *)

Lemma map_index_length {A B : Type} (f : A -> nat -> B) (k : nat) (l : list A) :
  List.length (map_index f k l) = List.length l.
Proof. revert k. induction l as [|x l IH]; intro k; simpl; [| rewrite IH]; reflexivity. Qed.

Lemma map_index_nth {A B : Type} (f : A -> nat -> B) (k i : nat) (l : list A) (x : A) :
  nth_error l i = Some x -> nth_error (map_index f k l) i = Some (f x (k + i)%nat).
Proof.
  revert k i. induction l as [|y l IH]; intros k [|i]; simpl; try discriminate.
  - intros [= ->]. now rewrite Nat.add_0_r.
  - intro H. rewrite (IH (S k) i H). f_equal. f_equal. lia.
Qed.

Lemma map_index_map {A B C : Type} (g : A -> B) (f : B -> nat -> C) (k : nat) (l : list A) :
  map_index f k (List.map g l) = map_index (fun x i => f (g x) i) k l.
Proof. revert k. induction l as [|x l IH]; intro k; simpl; [| rewrite IH]; reflexivity. Qed.

(** [join] puts the separator between the entries: with one more
    separator at the end, every entry is followed by one. *)
Lemma join_flat_map (sep : jsstring) (l : list jsstring) :
  l <> [] -> join sep l ++ sep = flat_map (fun x => x ++ sep) l.
Proof.
  induction l as [|x l IH]; [congruence |]. intros _.
  destruct l as [|y l].
  - simpl. now rewrite app_nil_r.
  - change (join sep (x :: y :: l)) with (x ++ sep ++ join sep (y :: l)).
    change (flat_map (fun x => x ++ sep) (x :: y :: l))
      with ((x ++ sep) ++ flat_map (fun x => x ++ sep) (y :: l)).
    rewrite <- IH by discriminate. now rewrite <- !app_assoc.
Qed.

Section Matching.

Context {num : NumberOps}.

(** C8.  For a list of answer strings the rendered prompt holds, between
    its fixed parts, one line per answer, in the order of the input: the
    lines are separated by line feeds (U+000A), and the line at index [i] is
    the letter [Q], the decimal numeral of [i + 1], a colon, a space and the
    answer at index [i].  With the key configured, this prompt is what the
    handler sends to the provider (for a profile that [JSON.stringify]
    serializes). *)
Theorem answers_numbered_in_order
        (env : Env) (userProfile : Value) (answers : list jsstring) :
  exists lines block,
    List.length lines = List.length answers
    /\ (forall i answer,
          nth_error answers i = Some answer ->
          nth_error lines i
          = Some ([81]
                    ++ List.map N_of_ascii
                         (list_ascii_of_string
                            (NilZero.string_of_uint (Nat.to_uint (i + 1))))
                    ++ [58; 32] ++ answer))
    /\ (lines = [] -> block = [])
    /\ (lines <> [] -> block ++ [10] = flat_map (fun line => line ++ [10]) lines)
    /\ match_prompt userProfile (Arr (List.map Str answers))
       = Return (match_prompt_head ++ JSON_stringify_2 userProfile
                   ++ match_prompt_middle ++ block ++ match_prompt_tail)
    /\ (forall req,
          get (req_body req) (lit "userProfile") = Some userProfile ->
          ToBoolean (Some userProfile) = true ->
          get (req_body req) (lit "userAnswers") = Some (Arr (List.map Str answers)) ->
          (exists c key, GEMINI_API_KEY env = Some (c :: key)) ->
          stack_overflow env StringifyIndented userProfile = None ->
          fst (match_jobs env req)
          = [GenerateContent (lit "gemini-1.5-pro")
               (match_prompt_head ++ JSON_stringify_2 userProfile
                  ++ match_prompt_middle ++ block ++ match_prompt_tail)]).
Proof.
  exists (map_index (fun answer index => answer_line index answer) 0%nat answers).
  exists (join newline
            (map_index (fun answer index => answer_line index answer) 0%nat answers)).
  assert (Hprompt : match_prompt userProfile (Arr (List.map Str answers))
                    = Return (match_prompt_head ++ JSON_stringify_2 userProfile
                                ++ match_prompt_middle
                                ++ join newline
                                     (map_index (fun answer index => answer_line index answer)
                                        0%nat answers)
                                ++ match_prompt_tail)).
  { unfold match_prompt, answers_block. rewrite map_index_map. reflexivity. }
  split; [apply map_index_length |]. split; [| split; [| split; [| split]]].
  - intros i answer H. now rewrite (map_index_nth _ 0%nat i answers answer H).
  - intros ->. reflexivity.
  - apply join_flat_map.
  - exact Hprompt.
  - intros req Hp Tp Ha (c & key & Hkey) Hstack.
    assert (Hf : require_fields (req_body req)
                 = ([], Next (userProfile, Arr (List.map Str answers)))).
    { unfold require_fields. rewrite Hp, Ha, Tp. reflexivity. }
    rewrite (match_jobs_paths env req _ _ Hf), Hkey.
    unfold render_match_prompt. rewrite Hstack, first_error_strings, Hprompt.
    reflexivity.
Qed.

(** The handler sends the prompt it rendered. *)
Lemma match_jobs_sends_prompt (env : Env) (req : Request)
      (profile answers : Value) (prompt : jsstring) :
  require_fields (req_body req) = ([], Next (profile, answers)) ->
  (exists c key, GEMINI_API_KEY env = Some (c :: key)) ->
  render_match_prompt env profile answers = Return prompt ->
  fst (match_jobs env req) = [GenerateContent gemini_model prompt].
Proof.
  intros Hf (c & key & Hkey) Hp.
  rewrite (match_jobs_paths env req profile answers Hf), Hkey, Hp. reflexivity.
Qed.

(** C10, as amended.  With [GEMINI_API_KEY] configured, a request whose
    [userProfile] and [userAnswers] are truthy but whose [userAnswers] is not
    an array passes the 400 check; the template then throws, the outer catch
    answers HTTP 500 with error [Failed to match jobs], and the provider is
    not called.  The message is that of [userAnswers.map], which is not a
    function, unless [JSON.stringify], which comes first in the template,
    has thrown on the profile: then it is the engine's. *)
Theorem non_array_answers_give_500
        (env : Env) (req : Request) (profile answers : Value) :
  get (req_body req) (lit "userProfile") = Some profile ->
  get (req_body req) (lit "userAnswers") = Some answers ->
  ToBoolean (Some profile) = true ->
  ToBoolean (Some answers) = true ->
  isArray answers = false ->
  (exists c key, GEMINI_API_KEY env = Some (c :: key)) ->
  require_fields (req_body req) = ([], Next (profile, answers))
  /\ match_jobs env req
     = ([], mkResponse 500
              (Json (Obj [(lit "error", Str (lit "Failed to match jobs"));
                          (lit "message",
                           Str match stack_overflow env StringifyIndented profile with
                               | Some message => message
                               | None => lit "userAnswers.map is not a function"
                               end)]))).
Proof.
  intros Hp Ha Tp Ta Harr (c & key & Hkey).
  assert (Hf : require_fields (req_body req) = ([], Next (profile, answers))).
  { unfold require_fields. rewrite Hp, Ha, Tp, Ta. reflexivity. }
  split; [exact Hf |].
  rewrite (match_jobs_paths env req profile answers Hf), Hkey.
  unfold render_match_prompt, match_prompt, answers_block.
  destruct (stack_overflow env StringifyIndented profile) as [message|]; [reflexivity |].
  destruct answers; try discriminate; reflexivity.
Qed.

End Matching.

(** C8 on two answers, code unit by code unit: the answers section is
    [Q1: Continue], a line feed, [Q2: Remote]. *)
Lemma answers_numbered_in_order_witness :
  match_prompt sample_profile (Arr [Str (lit "Continue"); Str (lit "Remote")])
  = Return (match_prompt_head ++ JSON_stringify_2 sample_profile
              ++ match_prompt_middle
              ++ [81; 49; 58; 32; 67; 111; 110; 116; 105; 110; 117; 101; 10;
                  81; 50; 58; 32; 82; 101; 109; 111; 116; 101]
              ++ match_prompt_tail)
  /\ fst (match_jobs (sample_env sample_key json_completion) answers_request)
     = [GenerateContent (lit "gemini-1.5-pro")
          (match_prompt_head ++ JSON_stringify_2 sample_profile
             ++ match_prompt_middle
             ++ [81; 49; 58; 32; 67; 111; 110; 116; 105; 110; 117; 101; 10;
                 81; 50; 58; 32; 82; 101; 109; 111; 116; 101]
             ++ match_prompt_tail)].
Proof.
  destruct (answers_numbered_in_order (sample_env sample_key json_completion)
              sample_profile [lit "Continue"; lit "Remote"])
    as (lines & block & Hlen & Hline & _ & Hblock & Hprompt & Hsent).
  assert (Hlines : lines = [[81; 49; 58; 32; 67; 111; 110; 116; 105; 110; 117; 101];
                            [81; 50; 58; 32; 82; 101; 109; 111; 116; 101]]).
  { pose proof (Hline 0%nat _ eq_refl) as H0. pose proof (Hline 1%nat _ eq_refl) as H1.
    destruct lines as [|l0 [|l1 [|l2 lines]]]; try discriminate Hlen.
    cbn in H0, H1. now injection H0 as ->; injection H1 as ->. }
  assert (Hb : block = [81; 49; 58; 32; 67; 111; 110; 116; 105; 110; 117; 101; 10;
                        81; 50; 58; 32; 82; 101; 109; 111; 116; 101]).
  { subst lines. specialize (Hblock ltac:(discriminate)). cbn in Hblock.
    apply (app_inv_tail [10]). exact Hblock. }
  subst block. split; [exact Hprompt |].
  apply (Hsent answers_request); try reflexivity.
  exists 116, (lit "est-key"). reflexivity.
Defined.

(** C10 as the specification states it fails when no API key is set: the
    request with a string for [userAnswers] passes the 400 check and is
    answered by the configuration error, not by [Failed to match jobs]. *)
Lemma non_array_answers_without_key :
  match_jobs (sample_env None fenced_completion) string_answers_request
  = ([], mkResponse 500
           (Json (Obj [(lit "error",
                        Str (lit "GEMINI_API_KEY not configured in .env file"))])))
  /\ forall message,
       snd (match_jobs (sample_env None fenced_completion) string_answers_request)
       <> mkResponse 500
            (Json (Obj [(lit "error", Str (lit "Failed to match jobs"));
                        (lit "message", Str message)])).
Proof.
  split; [reflexivity |]. intros message H. discriminate H.
Qed.

Lemma non_array_answers_give_500_witness :
  match_jobs (sample_env sample_key fenced_completion) string_answers_request
  = ([], mkResponse 500
           (Json (Obj [(lit "error", Str (lit "Failed to match jobs"));
                       (lit "message", Str (lit "userAnswers.map is not a function"))]))).
Proof.
  apply (proj2 (non_array_answers_give_500
                  (sample_env sample_key fenced_completion)
                  string_answers_request sample_profile (Str (lit "Remote work"))
                  eq_refl eq_refl eq_refl eq_refl eq_refl
                  (ex_intro _ 116 (ex_intro _ (lit "est-key") eq_refl)))).
Defined.

(** A profile nested deeper than the call stack holds: [JSON.stringify]
    comes first in the template and throws, so that the message is the
    engine's and [userAnswers.map] is never reached. *)
Example non_array_answers_deep_profile :
  match_jobs (sample_env sample_key fenced_completion)
    (mkRequest None
       (Obj [(lit "userProfile", deep_value);
             (lit "userAnswers", Str (lit "Remote work"))]))
  = ([], mkResponse 500
           (Json (Obj [(lit "error", Str (lit "Failed to match jobs"));
                       (lit "message", Str (lit "Maximum call stack size exceeded"))]))).
Proof. vm_compute. reflexivity. Qed.

(* ================================================================== *)
(** * The theorems on concrete requests *)
(* ================================================================== *)

(** A fenced completion is not stripped of its fence: both routes answer
    500 and hand the completion back. *)
Lemma unparsable_completion_gives_500_witness :
  snd (analyze_resume (sample_env sample_key fenced_completion) text_request)
  = mkResponse 500
      (Json (Obj [(lit "error", Str (lit "Failed to parse AI response"));
                  (lit "details", Str fenced_completion)]))
  /\ snd (match_jobs (sample_env sample_key fenced_completion) answers_request)
     = mkResponse 500
         (Json (Obj [(lit "error", Str (lit "Failed to parse job matching response"));
                     (lit "details", Str fenced_completion)])).
Proof.
  assert (Hparse : JSON_parse (num := literal_numbers) fenced_completion = None)
    by (vm_compute; reflexivity).
  split.
  - apply (proj1 (unparsable_completion_gives_500
                    (sample_env sample_key fenced_completion) text_request gemini_model
                    (resume_prompt
                       (lit "Jane Doe, Software Engineer, 5 years React experience"))
                    fenced_completion eq_refl Hparse)).
    vm_compute. left. reflexivity.
  - apply (proj2 (unparsable_completion_gives_500
                    (sample_env sample_key fenced_completion) answers_request gemini_model
                    (match_prompt_head ++ JSON_stringify_2 sample_profile
                       ++ match_prompt_middle
                       ++ lit "Q1: Continue" ++ newline ++ lit "Q2: Remote"
                       ++ match_prompt_tail)
                    fenced_completion eq_refl Hparse)).
    vm_compute. left. reflexivity.
Defined.

Lemma missing_api_key_gives_500_witness :
  snd (analyze_resume (sample_env None fenced_completion) text_request)
  = mkResponse 500
      (Json (Obj [(lit "error",
                   Str (lit "GEMINI_API_KEY not configured in .env file"))]))
  /\ (forall model prompt,
        ~ In (GenerateContent model prompt)
            (fst (analyze_resume (sample_env None fenced_completion) text_request)))
  /\ match_jobs (sample_env None fenced_completion) answers_request
     = ([], mkResponse 500
              (Json (Obj [(lit "error",
                           Str (lit "GEMINI_API_KEY not configured in .env file"))]))).
Proof.
  destruct (missing_api_key_gives_500 (sample_env None fenced_completion)
              text_request eq_refl) as [Hanalyze _].
  destruct (missing_api_key_gives_500 (sample_env None fenced_completion)
              answers_request eq_refl) as [_ Hmatch].
  destruct (Hanalyze (lit "Jane Doe, Software Engineer, 5 years React experience")
                     eq_refl) as [Hresp Hno].
  split; [exact Hresp |]. split; [exact Hno |].
  apply Hmatch; reflexivity.
Defined.

Lemma blank_resume_text_rejected_witness :
  analyze_resume (sample_env sample_key fenced_completion) blank_request
  = ([], mkResponse 400
           (Json (Obj [(lit "error", Str (lit "Resume text or file is required"));
                       (lit "message",
                        Str (lit "Please provide either a resume file (PDF, DOCX, TXT) or resume text in the request body"))]))).
Proof.
  apply (blank_resume_text_rejected (sample_env sample_key fenced_completion)
           blank_request [] [32; 10; 9; 32] eq_refl eq_refl).
Defined.


Lemma with_cors_allowed {num : NumberOps}
      (origin : option jsstring) (route : list Event * Response) :
  cors_origin origin = Allowed -> with_cors origin route = route.
Proof. intro H. unfold with_cors. now rewrite H. Qed.

(** A [.docx] upload sent together with a [resumeText] field: the trace of
    the handler. *)
Example file_and_text_prompt :
  fst (analyze_resume (sample_env sample_key fenced_completion)
         (mkRequest (Some docx_file) (req_body text_request)))
  = [ExtractRawText [x50; x4b];
     GenerateContent gemini_model (resume_prompt (lit "Jane Doe, Software Engineer"))].
Proof. vm_compute. reflexivity. Qed.

(** A file part without a file name is no file: the handler reads the
    body. *)
Example nameless_part_is_no_file :
  analyze_resume_route (sample_env sample_key json_completion)
    (Some (mkFile [] [x50; x4b])) (req_body text_request)
  = analyze_resume (sample_env sample_key json_completion) text_request.
Proof. reflexivity. Qed.

Example answer_line_tenth :
  answer_line 9 (lit "Hybrid") = [81; 49; 48; 58; 32; 72; 121; 98; 114; 105; 100].
Proof. reflexivity. Qed.

(* ================================================================== *)
(** * Further properties: uploads *)
(* ================================================================== *)

Section UploadFacts.

Context {num : NumberOps}.

Lemma upload_single_approved (env : Env) (file approved : File) :
  upload_single env (Some file) = Return (Some approved) ->
  approved = file
  /\ originalname file <> []
  /\ In (fileExt file) allowedTypes
  /\ N.of_nat (List.length (buffer file)) <= fileSize_limit.
Proof.
  unfold upload_single. destruct (originalname file) as [|c name]; [discriminate |].
  destruct (fileFilter_cases file) as [[-> Hin] | [-> _]]; [| discriminate].
  unfold too_large.
  destruct (limit_reached_is_error env).
  - destruct (N.leb_spec fileSize_limit (N.of_nat (List.length (buffer file))));
      [discriminate |].
    intros [= <-]. repeat split; auto; [discriminate | lia].
  - destruct (N.ltb_spec fileSize_limit (N.of_nat (List.length (buffer file))));
      [discriminate |].
    intros [= <-]. repeat split; auto. discriminate.
Qed.

(** A part multer does not attach has no file name. *)
Lemma upload_single_skipped (env : Env) (file : File) :
  upload_single env (Some file) = Return None -> originalname file = [].
Proof.
  unfold upload_single. destruct (originalname file) as [|c name]; [reflexivity |].
  destruct (fileFilter file); [| discriminate].
  destruct (too_large env (N.of_nat (List.length (buffer file)))); discriminate.
Qed.

Lemma extractTextFromFile_by_extension (env : Env) (file : File) :
  In (fileExt file) allowedTypes ->
  (fileExt file = lit ".pdf"
   /\ extractTextFromFile env file = extractTextFromPDF env (buffer file))
  \/ (fileExt file = lit ".docx"
      /\ extractTextFromFile env file = extractTextFromDOCX env (buffer file))
  \/ (fileExt file = lit ".txt"
      /\ extractTextFromFile env file = extractTextFromTXT (buffer file)).
Proof.
  unfold extractTextFromFile.
  intros [E | [E | [E | []]]]; rewrite <- E.
  - left. split; reflexivity.
  - right; left. split; reflexivity.
  - right; right. split; reflexivity.
Qed.

(** X1.  A file the upload gate lets through is always handled by one of
    the three extractors, chosen by its extension: the [Unsupported file
    type] branch of [extractTextFromFile] is never taken for it. *)
Theorem approved_file_has_an_extractor (env : Env) (file approved : File) :
  upload_single env (Some file) = Return (Some approved) ->
  approved = file
  /\ ((fileExt file = lit ".pdf"
       /\ extractTextFromFile env file = extractTextFromPDF env (buffer file))
      \/ (fileExt file = lit ".docx"
          /\ extractTextFromFile env file = extractTextFromDOCX env (buffer file))
      \/ (fileExt file = lit ".txt"
          /\ extractTextFromFile env file = extractTextFromTXT (buffer file)))
  /\ (forall tr message,
        extractTextFromFile env file = (tr, Raise message) ->
        message <> lit "Unsupported file type: " ++ fileExt file).
Proof.
  intro Hup. apply upload_single_approved in Hup as (-> & _ & Hin & _).
  split; [reflexivity |].
  pose proof (extractTextFromFile_by_extension env file Hin) as Hd.
  split; [exact Hd |].
  intros tr message He Hm. subst message.
  destruct Hd as [[_ E] | [[_ E] | [_ E]]]; rewrite E in He.
  - unfold extractTextFromPDF, catch, call, raise in He.
    destruct (pdfParse env (buffer file)); discriminate.
  - unfold extractTextFromDOCX, catch, call, raise in He.
    destruct (extractRawText env (buffer file)); discriminate.
  - discriminate.
Qed.

Lemma extractTextFromFile_events (env : Env) (file : File) (e : Event) :
  In e (fst (extractTextFromFile env file)) ->
  (e = PdfParse (buffer file) /\ fileExt file = lit ".pdf")
  \/ (e = ExtractRawText (buffer file) /\ fileExt file = lit ".docx").
Proof.
  unfold extractTextFromFile, extractTextFromPDF, extractTextFromDOCX,
    extractTextFromTXT.
  destruct (str_eqb (fileExt file) (lit ".pdf")) eqn:Epdf.
  { apply str_eqb_eq in Epdf.
    destruct (pdfParse env (buffer file)); simpl; intros [<- | []]; auto. }
  destruct (str_eqb (fileExt file) (lit ".docx")) eqn:Edocx.
  { apply str_eqb_eq in Edocx.
    destruct (extractRawText env (buffer file)); simpl; intros [<- | []]; auto. }
  destruct (str_eqb (fileExt file) (lit ".txt")); simpl; intros [].
Qed.

Lemma validated_trace_of_file (env : Env) (file : File) (body : Value) :
  fst (validated_resume_text env (mkRequest (Some file) body))
  = fst (extractTextFromFile env file).
Proof.
  unfold validated_resume_text, read_resume_text. cbn [req_file].
  destruct (extractTextFromFile env file) as [tr [text|r|m]]; simpl;
    rewrite ?app_nil_r; try reflexivity.
  pose proof (require_resume_text_trace (Str text)) as H.
  destruct (require_resume_text (Str text)) as [tr' st]. simpl in *. subst tr'.
  now rewrite app_nil_r.
Qed.

Lemma validated_trace_of_body (env : Env) (body : Value) :
  fst (validated_resume_text env (mkRequest None body)) = [].
Proof.
  unfold validated_resume_text, read_resume_text. cbn [req_file req_body].
  assert (H : forall v, fst (bind (ret (A := Value) v) require_resume_text) = []).
  { intro v. cbn [bind ret]. pose proof (require_resume_text_trace v) as H.
    destruct (require_resume_text v) as [tr st]. simpl in *. now subst. }
  destruct (get body (lit "resumeText")) as [v|]; [| apply H].
  destruct (ToBoolean (Some v)); apply H.
Qed.

(** The external calls of the handler: those of the validation, and then
    at most one call of the provider, with the configured model. *)
Lemma analyze_resume_events (env : Env) (req : Request) (e : Event) :
  In e (fst (analyze_resume env req)) ->
  In e (fst (validated_resume_text env req))
  \/ exists prompt, e = GenerateContent gemini_model prompt.
Proof.
  rewrite analyze_resume_paths.
  destruct (validated_resume_text env req) as [tr [text|r|m]]; simpl; auto.
  destruct (GEMINI_API_KEY env) as [[|c key]|]; simpl; auto.
  intro He. apply in_app_or in He as [He | [<- | []]]; eauto.
Qed.

(** X2.  The parsing libraries only ever see files the gate approved:
    [pdf-parse] is called on [.pdf] files only and [mammoth] on [.docx]
    files only, each on the file's own buffer, of a file that has a name
    and at most 10 MiB; whenever the provider is called for a request with
    a file part, with the configured model, the part was either approved in
    that way or had no file name (the text then comes from the body). *)
Theorem parsers_see_approved_files
        (env : Env) (file : File) (body : Value) (e : Event) :
  In e (fst (analyze_resume_route env (Some file) body)) ->
  match e with
  | PdfParse b =>
      fileExt file = lit ".pdf" /\ b = buffer file
      /\ originalname file <> []
      /\ N.of_nat (List.length (buffer file)) <= 10 * 1024 * 1024
  | ExtractRawText b =>
      fileExt file = lit ".docx" /\ b = buffer file
      /\ originalname file <> []
      /\ N.of_nat (List.length (buffer file)) <= 10 * 1024 * 1024
  | GenerateContent model _ =>
      model = lit "gemini-1.5-pro"
      /\ (originalname file = []
          \/ (In (fileExt file) [lit ".pdf"; lit ".docx"; lit ".txt"]
              /\ N.of_nat (List.length (buffer file)) <= 10 * 1024 * 1024))
  end.
Proof.
  unfold analyze_resume_route.
  destruct (upload_single env (Some file)) as [approved|m] eqn:Hup; [| intros []].
  destruct approved as [approved|].
  - apply upload_single_approved in Hup as (-> & Hname & Hin & Hsize).
    intro He. apply analyze_resume_events in He as [He | (prompt & ->)].
    + rewrite validated_trace_of_file in He.
      apply extractTextFromFile_events in He as [[-> E] | [-> E]]; auto.
    + split; [reflexivity |]. right. split; assumption.
  - apply upload_single_skipped in Hup.
    intro He. apply analyze_resume_events in He as [He | (prompt & ->)].
    + rewrite validated_trace_of_body in He. contradiction.
    + split; [reflexivity |]. now left.
Qed.

(** X3.  When the parsing library throws, the request is answered with HTTP
    400, error [Failed to process uploaded file], and a message made of the
    stage prefix and the library's own message; the library was called once
    and the provider not at all, whatever the body and the API key. *)
Theorem parser_failure_gives_400
        (env : Env) (file : File) (body : Value) (message : jsstring) :
  (fileExt file = lit ".pdf" ->
   pdfParse env (buffer file) = Throw message ->
   analyze_resume env (mkRequest (Some file) body)
   = ([PdfParse (buffer file)],
      mkResponse 400
        (Json (Obj [(lit "error", Str (lit "Failed to process uploaded file"));
                    (lit "message",
                     Str (lit "Failed to extract text from PDF: " ++ message))]))))
  /\ (fileExt file = lit ".docx" ->
      extractRawText env (buffer file) = Throw message ->
      analyze_resume env (mkRequest (Some file) body)
      = ([ExtractRawText (buffer file)],
         mkResponse 400
           (Json (Obj [(lit "error", Str (lit "Failed to process uploaded file"));
                       (lit "message",
                        Str (lit "Failed to extract text from DOCX: " ++ message))])))).
Proof.
  split; intros Hext Hthrow; rewrite analyze_resume_paths;
    unfold validated_resume_text, read_resume_text, extractTextFromFile;
    cbn [req_file]; rewrite Hext.
  - change (str_eqb (lit ".pdf") (lit ".pdf")) with true. cbv iota.
    unfold extractTextFromPDF, call. rewrite Hthrow. reflexivity.
  - change (str_eqb (lit ".docx") (lit ".pdf")) with false.
    change (str_eqb (lit ".docx") (lit ".docx")) with true. cbv iota.
    unfold extractTextFromDOCX, call. rewrite Hthrow. reflexivity.
Qed.

Lemma validated_text_cases (text : jsstring) :
  require_resume_text (Str text) = ([], Next text)
  \/ require_resume_text (Str text) = ([], Send resume_required).
Proof.
  unfold require_resume_text.
  destruct (negb (ToBoolean (Some (Str text)))); [now right |].
  destruct (trim text); [now right | now left].
Qed.

Lemma read_text_from_body (env : Env) (body : Value) (text : jsstring) :
  get body (lit "resumeText") = Some (Str text) ->
  read_resume_text env (mkRequest None body) = ([], Next (Str text)).
Proof.
  intro Hget. unfold read_resume_text. cbn [req_file req_body]. rewrite Hget.
  destruct text; reflexivity.
Qed.

(** X4.  Uploading a file is the same as sending its extracted text: the
    response is the one the handler gives to the text sent as [resumeText],
    and the trace is the extraction's followed by that request's. *)
Theorem upload_is_extracted_text
        (env : Env) (file : File) (body body' : Value)
        (tr : list Event) (text : jsstring) :
  extractTextFromFile env file = (tr, Next text) ->
  get body' (lit "resumeText") = Some (Str text) ->
  analyze_resume env (mkRequest (Some file) body)
  = (tr ++ fst (analyze_resume env (mkRequest None body')),
     snd (analyze_resume env (mkRequest None body'))).
Proof.
  intros Hex Hget.
  assert (Hfile : validated_resume_text env (mkRequest (Some file) body)
                  = (tr ++ fst (require_resume_text (Str text)),
                     snd (require_resume_text (Str text)))).
  { unfold validated_resume_text, read_resume_text. cbn [req_file].
    rewrite Hex. simpl. rewrite app_nil_r.
    now destruct (require_resume_text (Str text)). }
  assert (Hbody : validated_resume_text env (mkRequest None body')
                  = require_resume_text (Str text)).
  { unfold validated_resume_text. rewrite (read_text_from_body env body' text Hget).
    simpl. now destruct (require_resume_text (Str text)). }
  rewrite !analyze_resume_paths, Hfile, Hbody.
  destruct (validated_text_cases text) as [-> | ->]; simpl; rewrite ?app_nil_r.
  - destruct (GEMINI_API_KEY env) as [[|c key]|]; simpl; rewrite ?app_nil_r;
      reflexivity.
  - reflexivity.
Qed.

End UploadFacts.

(* ================================================================== *)
(** * Further properties: the two POST handlers *)
(* ================================================================== *)

Section HandlerFacts.

Context {num : NumberOps}.

(** X5.  Without a file, a request whose [resumeText] is missing or falsy
    ([null], [false], [0], the empty string) is answered with HTTP 400 and
    the error [Resume text or file is required]; nothing outside the process
    is called, and the API key plays no part. *)
Theorem missing_resume_text_gives_400 (env : Env) (body : Value) :
  ToBoolean (get body (lit "resumeText")) = false ->
  analyze_resume env (mkRequest None body)
  = ([], mkResponse 400
           (Json (Obj [(lit "error", Str (lit "Resume text or file is required"));
                       (lit "message",
                        Str (lit "Please provide either a resume file (PDF, DOCX, TXT) or resume text in the request body"))]))).
Proof.
  intro Hfalsy. rewrite analyze_resume_paths.
  unfold validated_resume_text, read_resume_text. cbn [req_file req_body].
  destruct (get body (lit "resumeText")) as [v|]; [rewrite Hfalsy |]; reflexivity.
Qed.

(** X6.  Without a file, a truthy [resumeText] that is not a string (a
    number, [true], an array, an object) passes the first test, has no
    [trim] to call, and the outer catch answers HTTP 500 with error [Failed
    to analyze resume]; nothing outside the process is called. *)
Theorem non_string_resume_text_gives_500 (env : Env) (body v : Value) :
  get body (lit "resumeText") = Some v ->
  ToBoolean (Some v) = true ->
  (forall s, v <> Str s) ->
  analyze_resume env (mkRequest None body)
  = ([], mkResponse 500
           (Json (Obj [(lit "error", Str (lit "Failed to analyze resume"));
                       (lit "message", Str (lit "resumeText.trim is not a function"))]))).
Proof.
  intros Hget Htruthy Hstr. rewrite analyze_resume_paths.
  unfold validated_resume_text, read_resume_text. cbn [req_file req_body].
  rewrite Hget, Htruthy. simpl. unfold require_resume_text. rewrite Htruthy.
  destruct v; try reflexivity. now destruct (Hstr s).
Qed.


Lemma extractTextFromFile_never_sends
      (env : Env) (file : File) (tr : list Event) (r : Response) :
  extractTextFromFile env file <> (tr, Send r).
Proof.
  unfold extractTextFromFile, extractTextFromPDF, extractTextFromDOCX,
    extractTextFromTXT, catch, call, raise, ret.
  destruct (str_eqb (fileExt file) (lit ".pdf")).
  { destruct (pdfParse env (buffer file)); discriminate. }
  destruct (str_eqb (fileExt file) (lit ".docx")).
  { destruct (extractRawText env (buffer file)); discriminate. }
  destruct (str_eqb (fileExt file) (lit ".txt")); discriminate.
Qed.

Lemma require_resume_text_cases (v : Value) :
  (exists text, v = Str text /\ trim text <> []
                /\ require_resume_text v = ([], Next text))
  \/ require_resume_text v = ([], Send resume_required)
  \/ require_resume_text v = ([], Raise (lit "resumeText.trim is not a function")).
Proof.
  unfold require_resume_text.
  destruct (negb (ToBoolean (Some v))); [right; now left |].
  destruct v; try (right; now right).
  destruct (trim s) eqn:E; [right; now left |].
  left. exists s. rewrite E. repeat split. discriminate.
Qed.

(** How the input validation of the analyze route can end. *)
Lemma validated_resume_text_cases (env : Env) (req : Request) :
  (exists tr text, trim text <> []
                   /\ validated_resume_text env req = (tr, Next text))
  \/ (exists tr, validated_resume_text env req = (tr, Send resume_required))
  \/ (exists tr message,
        validated_resume_text env req
        = (tr, Send (error_message 400 (lit "Failed to process uploaded file") message)))
  \/ (exists tr, validated_resume_text env req
                 = (tr, Raise (lit "resumeText.trim is not a function"))).
Proof.
  assert (Hreq : forall tr v,
             read_resume_text env req = (tr, Next v) ->
             (exists text, trim text <> []
                           /\ validated_resume_text env req = (tr, Next text))
             \/ validated_resume_text env req = (tr, Send resume_required)
             \/ validated_resume_text env req
                = (tr, Raise (lit "resumeText.trim is not a function"))).
  { intros tr v Hread. unfold validated_resume_text. rewrite Hread.
    cbn [bind].
    destruct (require_resume_text_cases v) as [(text & _ & Ht & ->) | [-> | ->]];
      rewrite app_nil_r; eauto. }
  destruct (read_resume_text env req) as [tr [v|r|m]] eqn:Hread.
  - destruct (Hreq tr v eq_refl) as [(t & Ht & E) | [E | E]]; eauto 8.
  - right; right; left. unfold validated_resume_text. rewrite Hread. simpl.
    unfold read_resume_text in Hread. destruct (req_file req) as [file|].
    + destruct (extractTextFromFile env file) as [tr0 [text|r0|m]] eqn:Hex;
        simpl in Hread.
      * discriminate.
      * now apply extractTextFromFile_never_sends in Hex.
      * injection Hread as <- <-. eauto.
    + destruct (get (req_body req) (lit "resumeText")) as [v|];
        [destruct (ToBoolean (Some v)) |]; discriminate.
  - exfalso. unfold read_resume_text in Hread. destruct (req_file req) as [file|].
    + destruct (extractTextFromFile env file) as [tr0 [text|r0|m0]];
        simpl in Hread; discriminate.
    + destruct (get (req_body req) (lit "resumeText")) as [v|];
        [destruct (ToBoolean (Some v)) |]; discriminate.
Qed.

(** X7.  The analyze route answers 200 exactly when the input passed
    validation, the key is configured, the provider returned a completion,
    [JSON.parse] accepted it and [res.json] could serialize the value.  The
    body is then the parsed completion, whatever its shape, and the provider
    was asked once, with the resume template filled with the text.  When
    [JSON.stringify] throws inside [res.json], the outer catch answers 500
    with its message. *)
Theorem analyze_resume_ok_iff (env : Env) (req : Request) :
  (status (snd (analyze_resume env req)) = 200 <->
   exists tr text responseText parsedResult,
     validated_resume_text env req = (tr, Next text)
     /\ (exists c key, GEMINI_API_KEY env = Some (c :: key))
     /\ generateContent env (lit "gemini-1.5-pro") (resume_prompt text)
        = Return responseText
     /\ JSON_parse responseText = Some parsedResult
     /\ stack_overflow env Stringify parsedResult = None)
  /\ (forall tr text responseText parsedResult,
        validated_resume_text env req = (tr, Next text) ->
        (exists c key, GEMINI_API_KEY env = Some (c :: key)) ->
        generateContent env (lit "gemini-1.5-pro") (resume_prompt text)
        = Return responseText ->
        JSON_parse responseText = Some parsedResult ->
        (stack_overflow env Stringify parsedResult = None ->
         analyze_resume env req
         = (tr ++ [GenerateContent (lit "gemini-1.5-pro") (resume_prompt text)],
            mkResponse 200 (Json parsedResult)))
        /\ (forall message,
              stack_overflow env Stringify parsedResult = Some message ->
              analyze_resume env req
              = (tr ++ [GenerateContent (lit "gemini-1.5-pro") (resume_prompt text)],
                 mkResponse 500
                   (Json (Obj [(lit "error", Str (lit "Failed to analyze resume"));
                               (lit "message", Str message)]))))).
Proof.
  assert (Hpath : forall tr text responseText parsedResult,
             validated_resume_text env req = (tr, Next text) ->
             (exists c key, GEMINI_API_KEY env = Some (c :: key)) ->
             generateContent env gemini_model (resume_prompt text) = Return responseText ->
             JSON_parse responseText = Some parsedResult ->
             analyze_resume env req
             = (tr ++ [GenerateContent gemini_model (resume_prompt text)],
                match stack_overflow env Stringify parsedResult with
                | None => ok_json parsedResult
                | Some message => error_message 500 (lit "Failed to analyze resume") message
                end)).
  { intros tr text responseText parsedResult Hv (c & key & Hkey) Hllm Hparse.
    rewrite analyze_resume_paths, Hv, Hkey, Hllm. unfold completion_response.
    now rewrite Hparse. }
  split; [split |].
  - rewrite analyze_resume_paths.
    destruct (validated_resume_text_cases env req)
      as [(tr & text & _ & Hv) | [(tr & Hv) | [(tr & m & Hv) | (tr & Hv)]]];
      rewrite Hv; simpl; try discriminate.
    destruct (GEMINI_API_KEY env) as [[|c key]|] eqn:Hkey; simpl; try discriminate.
    unfold completion_response.
    destruct (generateContent env gemini_model (resume_prompt text))
      as [responseText|m] eqn:Hllm; simpl; [| discriminate].
    destruct (JSON_parse responseText) as [parsedResult|] eqn:Hparse; simpl;
      [| discriminate].
    destruct (stack_overflow env Stringify parsedResult) eqn:Hstr; [discriminate |].
    intros _. exists tr, text, responseText, parsedResult. eauto 8.
  - intros (tr & text & responseText & parsedResult & Hv & Hkey & Hllm & Hparse & Hstr).
    rewrite (Hpath _ _ _ _ Hv Hkey Hllm Hparse), Hstr. reflexivity.
  - intros tr text responseText parsedResult Hv Hkey Hllm Hparse.
    rewrite (Hpath _ _ _ _ Hv Hkey Hllm Hparse).
    split; [intros -> | intros message ->]; reflexivity.
Qed.

(** X8.  The match route answers 200 exactly when both fields are truthy,
    the key is configured, the template renders (the profile is within the
    call stack, [userAnswers] is an array, and each answer has the built-in
    string conversion and, if it is an array, is within the call stack), the
    provider returned a completion, [JSON.parse] accepted it and [res.json]
    could serialize the value.  The body is then the parsed completion and
    the trace the one call of the provider. *)
Theorem match_jobs_ok_iff (env : Env) (req : Request) :
  (status (snd (match_jobs env req)) = 200 <->
   exists profile items prompt responseText parsedResult,
     get (req_body req) (lit "userProfile") = Some profile
     /\ get (req_body req) (lit "userAnswers") = Some (Arr items)
     /\ ToBoolean (Some profile) = true
     /\ (exists c key, GEMINI_API_KEY env = Some (c :: key))
     /\ stack_overflow env StringifyIndented profile = None
     /\ (forall answer, In answer items ->
           has_default_toString answer = true
           /\ (isArray answer = true -> stack_overflow env ArrayToString answer = None))
     /\ match_prompt profile (Arr items) = Return prompt
     /\ generateContent env (lit "gemini-1.5-pro") prompt = Return responseText
     /\ JSON_parse responseText = Some parsedResult
     /\ stack_overflow env Stringify parsedResult = None)
  /\ (forall profile items prompt responseText parsedResult,
        get (req_body req) (lit "userProfile") = Some profile ->
        get (req_body req) (lit "userAnswers") = Some (Arr items) ->
        ToBoolean (Some profile) = true ->
        (exists c key, GEMINI_API_KEY env = Some (c :: key)) ->
        stack_overflow env StringifyIndented profile = None ->
        (forall answer, In answer items ->
           has_default_toString answer = true
           /\ (isArray answer = true -> stack_overflow env ArrayToString answer = None)) ->
        match_prompt profile (Arr items) = Return prompt ->
        generateContent env (lit "gemini-1.5-pro") prompt = Return responseText ->
        JSON_parse responseText = Some parsedResult ->
        stack_overflow env Stringify parsedResult = None ->
        match_jobs env req
        = ([GenerateContent (lit "gemini-1.5-pro") prompt],
           mkResponse 200 (Json parsedResult))).
Proof.
  assert (Hpath : forall profile items prompt responseText parsedResult,
        get (req_body req) (lit "userProfile") = Some profile ->
        get (req_body req) (lit "userAnswers") = Some (Arr items) ->
        ToBoolean (Some profile) = true ->
        (exists c key, GEMINI_API_KEY env = Some (c :: key)) ->
        stack_overflow env StringifyIndented profile = None ->
        (forall answer, In answer items ->
           has_default_toString answer = true
           /\ (isArray answer = true -> stack_overflow env ArrayToString answer = None)) ->
        match_prompt profile (Arr items) = Return prompt ->
        generateContent env gemini_model prompt = Return responseText ->
        JSON_parse responseText = Some parsedResult ->
        stack_overflow env Stringify parsedResult = None ->
        match_jobs env req
        = ([GenerateContent gemini_model prompt], mkResponse 200 (Json parsedResult))).
  { intros profile items prompt responseText parsedResult
      Hp Ha Tp (c & key & Hkey) Hstack Hconv Hprompt Hllm Hparse Hstr.
    assert (Hf : require_fields (req_body req) = ([], Next (profile, Arr items))).
    { unfold require_fields. rewrite Hp, Ha, Tp. reflexivity. }
    apply (proj2 (first_error_None env items)) in Hconv.
    rewrite (match_jobs_paths env req _ _ Hf), Hkey.
    unfold render_match_prompt. rewrite Hstack, Hconv, Hprompt, Hllm.
    unfold completion_response. now rewrite Hparse, Hstr. }
  split; [split |].
  - destruct (require_fields_cases (req_body req))
      as [(profile & answers & Hp & Ha & Tp & Ta & Hf) | [_ Hf]].
    2:{ rewrite (match_jobs_missing env req Hf). discriminate. }
    rewrite (match_jobs_paths env req profile answers Hf).
    destruct (GEMINI_API_KEY env) as [[|c key]|] eqn:Hkey; simpl; try discriminate.
    destruct (render_match_prompt_cases env profile answers)
      as [(items & Hstack & -> & Hconv & ->) | (message & -> & _)];
      [| discriminate].
    destruct (match_prompt profile (Arr items)) as [prompt|m] eqn:Hprompt; simpl;
      [| discriminate].
    unfold completion_response.
    destruct (generateContent env gemini_model prompt) as [responseText|m] eqn:Hllm;
      simpl; [| discriminate].
    destruct (JSON_parse responseText) as [parsedResult|] eqn:Hparse; simpl;
      [| discriminate].
    destruct (stack_overflow env Stringify parsedResult) eqn:Hstr; [discriminate |].
    intros _. exists profile, items, prompt, responseText, parsedResult.
    pose proof (proj1 (first_error_None env items) Hconv) as Hall.
    repeat split; eauto; now apply Hall.
  - intros (profile & items & prompt & responseText & parsedResult
            & Hp & Ha & Tp & Hkey & Hstack & Hconv & Hprompt & Hllm & Hparse & Hstr).
    now rewrite (Hpath _ _ _ _ _ Hp Ha Tp Hkey Hstack Hconv Hprompt Hllm Hparse Hstr).
  - exact Hpath.
Qed.

(** X9.  When the provider call fails, the failure is caught by the outer
    catch of the handler: the response is HTTP 500 with the route's summary
    ([Failed to analyze resume], [Failed to match jobs]) and the provider's
    own message. *)
Theorem provider_failure_gives_500
        (env : Env) (req : Request) (model prompt message : jsstring) :
  generateContent env model prompt = Throw message ->
  (In (GenerateContent model prompt) (fst (analyze_resume env req)) ->
   snd (analyze_resume env req)
   = mkResponse 500
       (Json (Obj [(lit "error", Str (lit "Failed to analyze resume"));
                   (lit "message", Str message)])))
  /\ (In (GenerateContent model prompt) (fst (match_jobs env req)) ->
      snd (match_jobs env req)
      = mkResponse 500
          (Json (Obj [(lit "error", Str (lit "Failed to match jobs"));
                      (lit "message", Str message)]))).
Proof.
  intro Hllm. split; intro Hin.
  - apply llm_call_in_analyze in Hin as (tr & s & _ & -> & -> & ->).
    simpl. now rewrite Hllm.
  - apply llm_call_in_match in Hin as (-> & ->).
    simpl. now rewrite Hllm.
Qed.

Lemma no_llm_filter (trace : list Event) :
  forallb (fun e => negb (is_llm_call e)) trace = true ->
  filter is_llm_call trace = [].
Proof.
  induction trace as [|e trace IH]; simpl; [reflexivity |].
  intro H. apply andb_true_iff in H as [He Ht].
  destruct (is_llm_call e); [discriminate | now apply IH].
Qed.

(** X10.  No request makes the handlers call the provider twice (there is
    no retry), and the provider is only called with a key configured; on
    the analyze route it is only asked about a text that is not blank. *)
Theorem provider_called_at_most_once (env : Env) (req : Request) :
  (List.length (filter is_llm_call (fst (analyze_resume env req))) <= 1)%nat
  /\ (List.length (filter is_llm_call (fst (match_jobs env req))) <= 1)%nat
  /\ (forall model prompt,
        In (GenerateContent model prompt) (fst (analyze_resume env req)) ->
        (exists c key, GEMINI_API_KEY env = Some (c :: key))
        /\ exists text, prompt = resume_prompt text /\ trim text <> [])
  /\ (forall model prompt,
        In (GenerateContent model prompt) (fst (match_jobs env req)) ->
        exists c key, GEMINI_API_KEY env = Some (c :: key)).
Proof.
  split; [| split; [| split]].
  - rewrite analyze_resume_paths.
    pose proof (no_llm_filter _ (validated_resume_text_trace env req)) as Hno.
    destruct (validated_resume_text env req) as [tr [text|r|m]]; simpl in *;
      try (rewrite Hno; simpl; lia).
    destruct (GEMINI_API_KEY env) as [[|c key]|]; simpl;
      rewrite ?filter_app, Hno; simpl; lia.
  - destruct (require_fields_cases (req_body req))
      as [(profile & answers & _ & _ & _ & _ & Hf) | [_ Hf]].
    + rewrite (match_jobs_paths env req profile answers Hf).
      destruct (GEMINI_API_KEY env) as [[|c key]|]; simpl; try lia.
      destruct (render_match_prompt env profile answers); simpl; lia.
    + rewrite (match_jobs_missing env req Hf). simpl. lia.
  - intros model prompt Hin.
    assert (Hin' := Hin).
    apply llm_call_in_analyze in Hin' as (tr & text & Hv & _ & -> & _).
    rewrite analyze_resume_paths, Hv in Hin.
    pose proof (no_llm_call_forallb _ (validated_resume_text_trace env req)) as Hno.
    rewrite Hv in Hno. simpl in Hno.
    split.
    + destruct (GEMINI_API_KEY env) as [[|c key]|]; simpl in Hin; eauto;
        now apply Hno in Hin.
    + exists text. split; [reflexivity |].
      destruct (validated_resume_text_cases env req)
        as [(tr' & text' & Ht & Hv') | [(tr' & Hv') | [(tr' & m & Hv') | (tr' & Hv')]]];
        rewrite Hv in Hv'; try discriminate.
      now injection Hv' as _ <-.
  - intros model prompt Hin.
    destruct (require_fields_cases (req_body req))
      as [(profile & answers & _ & _ & _ & _ & Hf) | [_ Hf]].
    + rewrite (match_jobs_paths env req profile answers Hf) in Hin.
      destruct (GEMINI_API_KEY env) as [[|c key]|]; simpl in Hin; eauto;
        contradiction.
    + rewrite (match_jobs_missing env req Hf) in Hin. contradiction.
Qed.

Lemma error_message_is_error (code : N) (error message : jsstring) :
  code = 400 \/ code = 500 -> is_error_response (error_message code error message).
Proof. intro H. split; [exact H |]. eexists. exists error. split; reflexivity. Qed.

Lemma error_details_is_error (code : N) (error details : jsstring) :
  code = 400 \/ code = 500 -> is_error_response (error_details code error details).
Proof. intro H. split; [exact H |]. eexists. exists error. split; reflexivity. Qed.

Lemma error_only_is_error (code : N) (error : jsstring) :
  code = 400 \/ code = 500 -> is_error_response (error_only code error).
Proof. intro H. split; [exact H |]. eexists. exists error. split; reflexivity. Qed.

(** X11.  Whatever the request and the collaborators do, each handler ends
    with a response: either status 200, or status 400 or 500 with a JSON
    object that has a string under [error].  No failure of a collaborator
    escapes the handler. *)
Theorem handlers_answer_200_or_error (env : Env) (req : Request) :
  (status (snd (analyze_resume env req)) = 200
   \/ is_error_response (snd (analyze_resume env req)))
  /\ (status (snd (match_jobs env req)) = 200
      \/ is_error_response (snd (match_jobs env req))).
Proof.
  split.
  - rewrite analyze_resume_paths.
    destruct (validated_resume_text_cases env req)
      as [(tr & text & _ & Hv) | [(tr & Hv) | [(tr & m & Hv) | (tr & Hv)]]];
      rewrite Hv; simpl;
      try (right; apply error_message_is_error; auto).
    destruct (GEMINI_API_KEY env) as [[|c key]|]; simpl;
      try (right; apply error_only_is_error; auto).
    unfold completion_response.
    destruct (generateContent env gemini_model (resume_prompt text)) as [t|m];
      [| right; apply error_message_is_error; auto].
    destruct (JSON_parse t) as [v|]; [| right; apply error_details_is_error; auto].
    destruct (stack_overflow env Stringify v);
      [right; apply error_message_is_error; auto | now left].
  - destruct (require_fields_cases (req_body req))
      as [(profile & answers & _ & _ & _ & _ & Hf) | [_ Hf]].
    + rewrite (match_jobs_paths env req profile answers Hf).
      destruct (GEMINI_API_KEY env) as [[|c key]|]; simpl;
        try (right; apply error_only_is_error; auto).
      destruct (render_match_prompt env profile answers) as [prompt|m]; simpl;
        [| right; apply error_message_is_error; auto].
      unfold completion_response.
      destruct (generateContent env gemini_model prompt) as [t|m];
        [| right; apply error_message_is_error; auto].
      destruct (JSON_parse t) as [v|]; [| right; apply error_details_is_error; auto].
      destruct (stack_overflow env Stringify v);
        [right; apply error_message_is_error; auto | now left].
    + rewrite (match_jobs_missing env req Hf). simpl.
      right. apply error_message_is_error. auto.
Qed.

(** X12.  The handlers read nothing of the body but their own fields: two
    bodies with the same [resumeText] get the same answer from the analyze
    handler, and two bodies with the same [userProfile] and [userAnswers]
    get the same answer from the match handler, which does not look at an
    uploaded file either. *)
Theorem other_fields_are_ignored (env : Env) (body body' : Value) :
  (get body (lit "resumeText") = get body' (lit "resumeText") ->
   analyze_resume env (mkRequest None body) = analyze_resume env (mkRequest None body'))
  /\ (get body (lit "userProfile") = get body' (lit "userProfile") ->
      get body (lit "userAnswers") = get body' (lit "userAnswers") ->
      forall file file',
        match_jobs env (mkRequest file body) = match_jobs env (mkRequest file' body')).
Proof.
  split.
  - intro H. unfold analyze_resume, validated_resume_text, read_resume_text.
    cbn [req_file req_body]. now rewrite H.
  - intros Hp Ha file file'. unfold match_jobs, require_fields.
    cbn [req_body]. now rewrite Hp, Ha.
Qed.

(** X13.  A match request in which [userProfile] or [userAnswers] is
    missing or falsy is answered with HTTP 400 and the error [Missing
    required fields]; nothing outside the process is called, and the API key
    plays no part. *)
Theorem missing_fields_give_400 (env : Env) (req : Request) :
  ToBoolean (get (req_body req) (lit "userProfile")) = false
  \/ ToBoolean (get (req_body req) (lit "userAnswers")) = false ->
  match_jobs env req
  = ([], mkResponse 400
           (Json (Obj [(lit "error", Str (lit "Missing required fields"));
                       (lit "message",
                        Str (lit "Please provide userProfile and userAnswers"))]))).
Proof.
  intro H.
  destruct (require_fields_cases (req_body req))
    as [(profile & answers & Hp & Ha & Tp & Ta & _) | [_ Hf]].
  - rewrite Hp, Ha in H. destruct H; congruence.
  - now apply match_jobs_missing.
Qed.

(** X14.  An empty array of answers is truthy: with a truthy profile and a
    key configured, the request passes validation and the provider is asked
    with a prompt whose answers section is empty.  The one exception is a
    profile on which [JSON.stringify] exhausts the call stack: the outer
    catch then answers 500 with the engine's message. *)
Theorem empty_answers_are_accepted (env : Env) (req : Request) (profile : Value) :
  get (req_body req) (lit "userProfile") = Some profile ->
  ToBoolean (Some profile) = true ->
  get (req_body req) (lit "userAnswers") = Some (Arr []) ->
  (exists c key, GEMINI_API_KEY env = Some (c :: key)) ->
  match stack_overflow env StringifyIndented profile with
  | None =>
      fst (match_jobs env req)
      = [GenerateContent (lit "gemini-1.5-pro")
           (match_prompt_head ++ JSON_stringify_2 profile
              ++ match_prompt_middle ++ match_prompt_tail)]
  | Some message =>
      match_jobs env req
      = ([], mkResponse 500
               (Json (Obj [(lit "error", Str (lit "Failed to match jobs"));
                           (lit "message", Str message)])))
  end.
Proof.
  intros Hp Tp Ha (c & key & Hkey).
  assert (Hf : require_fields (req_body req) = ([], Next (profile, Arr []))).
  { unfold require_fields. rewrite Hp, Ha, Tp. reflexivity. }
  rewrite (match_jobs_paths env req profile (Arr []) Hf), Hkey.
  unfold render_match_prompt.
  destruct (stack_overflow env StringifyIndented profile) as [message|]; reflexivity.
Qed.

(** X15.  A key that is set to the empty string counts as not configured:
    both handlers behave as they do with the key unset. *)
Theorem empty_key_is_no_key (env : Env) (req : Request) :
  GEMINI_API_KEY env = Some [] ->
  analyze_resume env req = analyze_resume (without_key env) req
  /\ match_jobs env req = match_jobs (without_key env) req.
Proof.
  intro Hkey. split.
  - assert (Hv : validated_resume_text (without_key env) req
                 = validated_resume_text env req) by reflexivity.
    rewrite !analyze_resume_paths, Hv, Hkey. reflexivity.
  - destruct (require_fields_cases (req_body req))
      as [(profile & answers & _ & _ & _ & _ & Hf) | [_ Hf]].
    + rewrite !(match_jobs_paths _ req profile answers Hf), Hkey. reflexivity.
    + now rewrite !(match_jobs_missing _ req Hf).
Qed.

End HandlerFacts.

(* ================================================================== *)
(** * Further properties: origins, blank files and completions *)
(* ================================================================== *)

Lemma ascii_bytes_decode (bs : list byte) :
  forallb (fun b => to_N b <=? 127) bs = true ->
  Buffer_toString_utf8 bs = List.map to_N bs.
Proof.
  unfold Buffer_toString_utf8, Utf8.decode.
  induction bs as [|b bs IH]; [reflexivity |].
  intro H. cbn [forallb] in H. apply andb_true_iff in H as [Hb Hbs].
  cbn [Utf8.run]. unfold Utf8.step, Utf8.lead.
  change (Utf8.needed Utf8.initial =? 0) with true. cbv iota. rewrite Hb.
  cbn [app flat_map Utf8.units List.map]. rewrite (IH Hbs).
  unfold Utf8.utf16.
  destruct (N.ltb_spec (to_N b) 65536) as [_ | Hge]; [reflexivity |].
  apply N.leb_le in Hb. lia.
Qed.

Lemma blank_byte_is_white (b : byte) :
  is_blank_byte b = true -> (to_N b <=? 127) = true /\ is_white (to_N b) = true.
Proof.
  unfold is_blank_byte. cbn [existsb]. rewrite orb_false_r. intro H.
  repeat (apply orb_true_iff in H as [H | H]);
    apply N.eqb_eq in H; rewrite H; split; reflexivity.
Qed.

Lemma blank_bytes_decode_blank (bs : list byte) :
  forallb is_blank_byte bs = true ->
  forallb is_white (Buffer_toString_utf8 bs) = true.
Proof.
  intro H.
  assert (Hascii : forallb (fun b => to_N b <=? 127) bs = true).
  { rewrite forallb_forall in *. intros b Hb. now apply blank_byte_is_white, H. }
  rewrite (ascii_bytes_decode bs Hascii), forallb_forall.
  intros c Hc. apply in_map_iff in Hc as (b & <- & Hb).
  rewrite forallb_forall in H. now apply blank_byte_is_white, H.
Qed.

Section EdgeCases.

Context {num : NumberOps}.

(** X16.  No plain [http://] origin is permitted except the listed
    [http://localhost:5173]: for any other one the origin callback reports
    [Not allowed by CORS], and none of the three routes is entered. *)
Theorem plain_http_origins_refused
        (env : Env) (rest : jsstring) (part : option File) (body : Value) :
  lit "http://" ++ rest <> lit "http://localhost:5173" ->
  cors_origin (Some (lit "http://" ++ rest)) = NotAllowed (lit "Not allowed by CORS")
  /\ post_analyze_resume env (Some (lit "http://" ++ rest)) part body
     = ([], mkResponse 500 (ErrorPage (lit "Not allowed by CORS")))
  /\ post_match_jobs env (Some (lit "http://" ++ rest)) body
     = ([], mkResponse 500 (ErrorPage (lit "Not allowed by CORS")))
  /\ get_health (Some (lit "http://" ++ rest))
     = ([], mkResponse 500 (ErrorPage (lit "Not allowed by CORS"))).
Proof.
  intro Hother.
  assert (Hcors : cors_origin (Some (lit "http://" ++ rest))
                  = NotAllowed (lit "Not allowed by CORS")).
  { rewrite cors_origin_nonempty by discriminate.
    assert (Hlist : includes allowedOrigins (lit "http://" ++ rest) = false).
    { destruct (includes allowedOrigins (lit "http://" ++ rest)) eqn:E;
        [| reflexivity].
      apply includes_In in E. destruct E as [E | [E | [E | [E | []]]]];
        [now symmetry in E | discriminate E | discriminate E | discriminate E]. }
    assert (Hsub : Regex.matches lovable_subdomain_re (lit "http://" ++ rest) = false).
    { destruct (Regex.matches lovable_subdomain_re (lit "http://" ++ rest)) eqn:E;
        [| reflexivity].
      apply (pattern_https_label (lit "lovable.dev")) in E.
      destruct E as (label & _ & _ & E). discriminate E. }
    assert (Hprj : Regex.matches lovable_project_re (lit "http://" ++ rest) = false).
    { destruct (Regex.matches lovable_project_re (lit "http://" ++ rest)) eqn:E;
        [| reflexivity].
      apply (pattern_https_label (lit "lovableproject.com")) in E.
      destruct E as (label & _ & _ & E). discriminate E. }
    now rewrite Hlist, Hsub, Hprj. }
  split; [exact Hcors |].
  unfold post_analyze_resume, post_match_jobs, get_health, with_cors.
  rewrite Hcors. repeat split.
Qed.

(** X17.  A [.txt] upload that is empty or holds ASCII white space only is
    answered with HTTP 400 and the error [Resume text or file is required];
    nothing outside the process is called. *)
Theorem blank_text_file_gives_400 (env : Env) (file : File) (body : Value) :
  fileExt file = lit ".txt" ->
  forallb is_blank_byte (buffer file) = true ->
  analyze_resume env (mkRequest (Some file) body)
  = ([], mkResponse 400
           (Json (Obj [(lit "error", Str (lit "Resume text or file is required"));
                       (lit "message",
                        Str (lit "Please provide either a resume file (PDF, DOCX, TXT) or resume text in the request body"))]))).
Proof.
  intros Hext Hblank.
  assert (Htrim : trim (Buffer_toString_utf8 (buffer file)) = [])
    by now apply trim_nil, blank_bytes_decode_blank.
  rewrite analyze_resume_paths.
  unfold validated_resume_text, read_resume_text, extractTextFromFile.
  cbn [req_file]. rewrite Hext.
  change (str_eqb (lit ".txt") (lit ".pdf")) with false.
  change (str_eqb (lit ".txt") (lit ".docx")) with false.
  change (str_eqb (lit ".txt") (lit ".txt")) with true. cbv iota.
  unfold extractTextFromTXT. cbn [catch ret bind app].
  unfold require_resume_text.
  destruct (negb (ToBoolean (Some (Str (Buffer_toString_utf8 (buffer file))))));
    [reflexivity |].
  rewrite Htrim. reflexivity.
Qed.

Lemma not_a_start (c : N) :
  starts_json_value c = false ->
  (c =? 34) = false /\ (c =? 91) = false /\ (c =? 123) = false
  /\ (c =? 116) = false /\ (c =? 102) = false /\ (c =? 110) = false
  /\ (c =? 45) = false /\ is_digit c = false /\ (c =? 48) = false.
Proof.
  unfold starts_json_value, is_digit. intro H.
  repeat (apply orb_false_iff in H as [H ?]).
  repeat split; try assumption.
  destruct (N.eqb_spec c 48) as [-> |]; [discriminate | reflexivity].
Qed.

(** A text with nothing but white space, or whose first other character
    cannot begin a JSON value, is rejected by [JSON.parse]. *)
Lemma JSON_parse_needs_a_start (text : jsstring) :
  match skip_ws text with
  | [] => True
  | c :: _ => starts_json_value c = false
  end ->
  JSON_parse text = None.
Proof.
  intro H. unfold JSON_parse.
  replace (2 * List.length text + 2)%nat with (S (2 * List.length text + 1)) by lia.
  cbn [parse_value].
  destruct (skip_ws text) as [|c rest]; [reflexivity |].
  apply not_a_start in H as (H1 & H2 & H3 & H4 & H5 & H6 & H7 & H8 & H9).
  rewrite H1, H2, H3, H4, H5, H6.
  unfold lex_number, lex_int. rewrite H7, H9, H8. reflexivity.
Qed.

(** X18.  A completion that is empty or blank, or whose first character
    after white space cannot begin a JSON value (any letter but [t], [f],
    [n]; a markdown fence), is not valid JSON: both routes answer HTTP 500
    with their parse-error summary and the completion in [details]. *)
Theorem unstartable_completion_gives_500
        (env : Env) (req : Request) (model prompt text : jsstring) :
  generateContent env model prompt = Return text ->
  match skip_ws text with
  | [] => True
  | c :: _ => starts_json_value c = false
  end ->
  (In (GenerateContent model prompt) (fst (analyze_resume env req)) ->
   snd (analyze_resume env req)
   = mkResponse 500
       (Json (Obj [(lit "error", Str (lit "Failed to parse AI response"));
                   (lit "details", Str text)])))
  /\ (In (GenerateContent model prompt) (fst (match_jobs env req)) ->
      snd (match_jobs env req)
      = mkResponse 500
          (Json (Obj [(lit "error", Str (lit "Failed to parse job matching response"));
                      (lit "details", Str text)]))).
Proof.
  intros Hllm Hstart.
  assert (Hparse : JSON_parse text = None) by now apply JSON_parse_needs_a_start.
  split; intro Hin.
  - apply llm_call_in_analyze in Hin as (tr & s & _ & -> & -> & ->).
    simpl. unfold completion_response. now rewrite Hllm, Hparse.
  - apply llm_call_in_match in Hin as (-> & ->).
    simpl. unfold completion_response. now rewrite Hllm, Hparse.
Qed.

End EdgeCases.

(* ================================================================== *)
(** * Further properties: answers that are not strings *)
(* ================================================================== *)


Section AnswerValues.

Context {num : NumberOps}.


End AnswerValues.

(* ================================================================== *)
(** * The further properties on concrete requests *)
(* ================================================================== *)

Lemma analyze_resume_ok_iff_witness :
  status (snd (analyze_resume (sample_env sample_key json_completion) text_request))
  = 200
  /\ analyze_resume (sample_env sample_key deep_completion) text_request
     = ([GenerateContent (lit "gemini-1.5-pro")
           (resume_prompt (lit "Jane Doe, Software Engineer, 5 years React experience"))],
        mkResponse 500
          (Json (Obj [(lit "error", Str (lit "Failed to analyze resume"));
                      (lit "message", Str (lit "Maximum call stack size exceeded"))]))).
Proof.
  split.
  - apply (proj1 (analyze_resume_ok_iff (sample_env sample_key json_completion)
                    text_request)).
    exists [], (lit "Jane Doe, Software Engineer, 5 years React experience"),
      json_completion, (Obj [(lit "questions", Arr [])]).
    split; [reflexivity |]. split; [exists 116, (lit "est-key"); reflexivity |].
    split; [reflexivity |]. split; vm_compute; reflexivity.
  - apply (proj2 (analyze_resume_ok_iff (sample_env sample_key deep_completion)
                    text_request)
             [] (lit "Jane Doe, Software Engineer, 5 years React experience")
             deep_completion deep_value).
    + reflexivity.
    + exists 116, (lit "est-key"). reflexivity.
    + reflexivity.
    + vm_compute. reflexivity.
    + vm_compute. reflexivity.
Defined.

Lemma match_jobs_ok_iff_witness :
  match_jobs (sample_env sample_key json_completion) answers_request
  = ([GenerateContent (lit "gemini-1.5-pro")
        (match_prompt_head ++ JSON_stringify_2 sample_profile
           ++ match_prompt_middle
           ++ lit "Q1: Continue" ++ newline ++ lit "Q2: Remote"
           ++ match_prompt_tail)],
     mkResponse 200 (Json (Obj [(lit "questions", Arr [])]))).
Proof.
  apply (proj2 (match_jobs_ok_iff (sample_env sample_key json_completion)
                  answers_request)
           sample_profile [Str (lit "Continue"); Str (lit "Remote")] _
           json_completion); try reflexivity.
  - exists 116, (lit "est-key"). reflexivity.
  - intros answer [<- | [<- | []]]; (split; [reflexivity | discriminate]).
Defined.


Lemma approved_file_has_an_extractor_witness :
  extractTextFromFile (sample_env sample_key fenced_completion) docx_file
  = extractTextFromDOCX (sample_env sample_key fenced_completion) (buffer docx_file).
Proof.
  destruct (approved_file_has_an_extractor
              (sample_env sample_key fenced_completion) docx_file docx_file eq_refl)
    as (_ & [[E _] | [[_ E] | [E _]]] & _).
  - discriminate E.
  - exact E.
  - discriminate E.
Defined.

Lemma parsers_see_approved_files_witness :
  fileExt docx_file = lit ".docx"
  /\ N.of_nat (List.length (buffer docx_file)) <= 10 * 1024 * 1024.
Proof.
  assert (Hin : In (ExtractRawText (buffer docx_file))
                   (fst (analyze_resume_route
                           (sample_env sample_key fenced_completion)
                           (Some docx_file) (Obj []))))
    by (vm_compute; left; reflexivity).
  destruct (parsers_see_approved_files _ _ _ _ Hin) as (Hdocx & _ & _ & Hsize).
  split; [exact Hdocx | exact Hsize].
Defined.

Lemma parser_failure_gives_400_witness :
  analyze_resume (sample_env sample_key fenced_completion)
    (mkRequest (Some pdf_file) (req_body text_request))
  = ([PdfParse (buffer pdf_file)],
     mkResponse 400
       (Json (Obj [(lit "error", Str (lit "Failed to process uploaded file"));
                   (lit "message",
                    Str (lit "Failed to extract text from PDF: Invalid PDF structure"))]))).
Proof.
  apply (proj1 (parser_failure_gives_400 (sample_env sample_key fenced_completion)
                  pdf_file (req_body text_request) (lit "Invalid PDF structure")));
    reflexivity.
Defined.

Lemma upload_is_extracted_text_witness :
  analyze_resume (sample_env sample_key json_completion)
    (mkRequest (Some docx_file) (Obj []))
  = ([ExtractRawText (buffer docx_file)]
       ++ fst (analyze_resume (sample_env sample_key json_completion)
                 (mkRequest None
                    (Obj [(lit "resumeText", Str (lit "Jane Doe, Software Engineer"))]))),
     snd (analyze_resume (sample_env sample_key json_completion)
            (mkRequest None
               (Obj [(lit "resumeText", Str (lit "Jane Doe, Software Engineer"))])))).
Proof.
  apply (upload_is_extracted_text
           (sample_env sample_key json_completion) docx_file (Obj [])
           (Obj [(lit "resumeText", Str (lit "Jane Doe, Software Engineer"))])
           [ExtractRawText (buffer docx_file)] (lit "Jane Doe, Software Engineer"));
    reflexivity.
Defined.

Lemma missing_resume_text_gives_400_witness :
  analyze_resume (sample_env sample_key fenced_completion) empty_request
  = ([], mkResponse 400
           (Json (Obj [(lit "error", Str (lit "Resume text or file is required"));
                       (lit "message",
                        Str (lit "Please provide either a resume file (PDF, DOCX, TXT) or resume text in the request body"))]))).
Proof.
  apply (missing_resume_text_gives_400 (sample_env sample_key fenced_completion)
           (req_body empty_request)).
  reflexivity.
Defined.

Lemma non_string_resume_text_gives_500_witness :
  analyze_resume (sample_env sample_key fenced_completion) numeric_text_request
  = ([], mkResponse 500
           (Json (Obj [(lit "error", Str (lit "Failed to analyze resume"));
                       (lit "message", Str (lit "resumeText.trim is not a function"))]))).
Proof.
  apply (non_string_resume_text_gives_500 (sample_env sample_key fenced_completion)
           (req_body numeric_text_request) (Num (Number_ofLiteral (lit "42"))));
    try reflexivity.
  intros s H. discriminate H.
Defined.

Lemma provider_failure_gives_500_witness :
  snd (analyze_resume failing_provider_env text_request)
  = mkResponse 500
      (Json (Obj [(lit "error", Str (lit "Failed to analyze resume"));
                  (lit "message", Str (lit "429 Too Many Requests"))]))
  /\ snd (match_jobs failing_provider_env answers_request)
     = mkResponse 500
         (Json (Obj [(lit "error", Str (lit "Failed to match jobs"));
                     (lit "message", Str (lit "429 Too Many Requests"))])).
Proof.
  split.
  - apply (proj1 (provider_failure_gives_500 failing_provider_env text_request
                    gemini_model
                    (resume_prompt
                       (lit "Jane Doe, Software Engineer, 5 years React experience"))
                    (lit "429 Too Many Requests") eq_refl)).
    vm_compute. left. reflexivity.
  - apply (proj2 (provider_failure_gives_500 failing_provider_env answers_request
                    gemini_model
                    (match_prompt_head ++ JSON_stringify_2 sample_profile
                       ++ match_prompt_middle
                       ++ lit "Q1: Continue" ++ newline ++ lit "Q2: Remote"
                       ++ match_prompt_tail)
                    (lit "429 Too Many Requests") eq_refl)).
    vm_compute. left. reflexivity.
Defined.

Lemma provider_called_at_most_once_witness :
  (List.length (filter is_llm_call
                  (fst (analyze_resume (sample_env sample_key json_completion)
                          text_request))) <= 1)%nat
  /\ exists c key, GEMINI_API_KEY (sample_env sample_key json_completion) = Some (c :: key).
Proof.
  destruct (provider_called_at_most_once (sample_env sample_key json_completion)
              text_request) as (Hone & _ & Hkey & _).
  split; [exact Hone |].
  apply (Hkey gemini_model
           (resume_prompt (lit "Jane Doe, Software Engineer, 5 years React experience"))).
  vm_compute. left. reflexivity.
Defined.

Lemma other_fields_are_ignored_witness :
  analyze_resume (sample_env sample_key json_completion)
    (mkRequest None
       (Obj [(lit "resumeText", Str (lit "Jane Doe")); (lit "debug", Bool true)]))
  = analyze_resume (sample_env sample_key json_completion)
      (mkRequest None (Obj [(lit "resumeText", Str (lit "Jane Doe"))])).
Proof.
  apply (proj1 (other_fields_are_ignored
                  (sample_env sample_key json_completion)
                  (Obj [(lit "resumeText", Str (lit "Jane Doe")); (lit "debug", Bool true)])
                  (Obj [(lit "resumeText", Str (lit "Jane Doe"))]))).
  reflexivity.
Defined.

Lemma missing_fields_give_400_witness :
  match_jobs (sample_env None fenced_completion) profile_only_request
  = ([], mkResponse 400
           (Json (Obj [(lit "error", Str (lit "Missing required fields"));
                       (lit "message",
                        Str (lit "Please provide userProfile and userAnswers"))]))).
Proof.
  apply (missing_fields_give_400 (sample_env None fenced_completion)
           profile_only_request).
  right. reflexivity.
Defined.

Lemma empty_answers_are_accepted_witness :
  fst (match_jobs (sample_env sample_key json_completion) no_answers_request)
  = [GenerateContent gemini_model
       (match_prompt_head ++ JSON_stringify_2 sample_profile
          ++ match_prompt_middle ++ match_prompt_tail)].
Proof.
  apply (empty_answers_are_accepted (sample_env sample_key json_completion)
           no_answers_request sample_profile eq_refl eq_refl eq_refl
           (ex_intro _ 116 (ex_intro _ (lit "est-key") eq_refl))).
Defined.

Lemma empty_key_is_no_key_witness :
  analyze_resume (sample_env (Some []) json_completion) text_request
  = analyze_resume (without_key (sample_env (Some []) json_completion)) text_request
  /\ snd (analyze_resume (sample_env (Some []) json_completion) text_request)
     = mkResponse 500
         (Json (Obj [(lit "error",
                      Str (lit "GEMINI_API_KEY not configured in .env file"))])).
Proof.
  split.
  - apply (proj1 (empty_key_is_no_key (sample_env (Some []) json_completion)
                    text_request eq_refl)).
  - reflexivity.
Defined.

Lemma plain_http_origins_refused_witness :
  cors_origin (Some (lit "http://foo.lovable.dev")) = NotAllowed (lit "Not allowed by CORS")
  /\ post_match_jobs (sample_env sample_key json_completion)
       (Some (lit "http://foo.lovable.dev")) (req_body answers_request)
     = ([], mkResponse 500 (ErrorPage (lit "Not allowed by CORS"))).
Proof.
  assert (H : lit "http://" ++ lit "foo.lovable.dev" <> lit "http://localhost:5173")
    by discriminate.
  destruct (plain_http_origins_refused (sample_env sample_key json_completion)
              (lit "foo.lovable.dev") None (req_body answers_request) H)
    as (Hcors & _ & Hmatch & _).
  split; [exact Hcors | exact Hmatch].
Defined.

Lemma blank_text_file_gives_400_witness :
  analyze_resume (sample_env sample_key json_completion)
    (mkRequest (Some blank_txt) (req_body text_request))
  = ([], mkResponse 400
           (Json (Obj [(lit "error", Str (lit "Resume text or file is required"));
                       (lit "message",
                        Str (lit "Please provide either a resume file (PDF, DOCX, TXT) or resume text in the request body"))]))).
Proof.
  apply (blank_text_file_gives_400 (sample_env sample_key json_completion)
           blank_txt (req_body text_request)); reflexivity.
Defined.

Lemma unstartable_completion_gives_500_witness :
  snd (analyze_resume (sample_env sample_key (lit "Sorry, I can't help")) text_request)
  = mkResponse 500
      (Json (Obj [(lit "error", Str (lit "Failed to parse AI response"));
                  (lit "details", Str (lit "Sorry, I can't help"))])).
Proof.
  apply (proj1 (unstartable_completion_gives_500
                  (sample_env sample_key (lit "Sorry, I can't help")) text_request
                  gemini_model
                  (resume_prompt
                     (lit "Jane Doe, Software Engineer, 5 years React experience"))
                  (lit "Sorry, I can't help") eq_refl eq_refl)).
  vm_compute. left. reflexivity.
Defined.
